(** * wealthescrow_bot: the escrow session code, embedded and verified

    A shallow embedding of the Python sources
      - [bot_groups.py] (module [BotGroups]): the payment target resolver
        with the Lightning preference, and its [/pay] handler;
      - [btcpay.py]     (module [Btcpay]): the gateway client helpers;
      - [bot.py]        (module [Bot]): the role registry and the handlers
        [/seller], [/buyer], [/pay];
      - [app_tdlib.py]  (module [AppTdlib]): channel provisioning;
        (module [AppTdlibMain]): the import, the handlers and [main];
      - the invite link of the shared group: [bot.py] (module [BotCreate])
        and [bot_groups.py] (module [BotGroupsCreate]).

    Python values coming from the gateway's JSON stay dynamically typed
    ([json]); a raised exception is the [Raise] case of [result]; calls that
    leave the process (HTTP, Telegram, the file system, the clock) are logged
    in a trace and answered by a [world], which may look at the trace so far. *)

From Stdlib Require Import String Ascii ZArith List Bool Lia.
From stdpp Require Import base option list gmap strings pretty.

Set Warnings "-register-all".

Local Open Scope string_scope.
Local Open Scope Z_scope.

(** ** Python values and exceptions *)

(** What [resp.json()] can hold.  Numbers are the integers; the gateway sends
    amounts as strings. *)
Inductive json : Type :=
  | PNone
  | PBool (b : bool)
  | PInt (z : Z)
  | PStr (s : string)
  | PList (l : list json)
  | PDict (d : list (string * json)).

(** A JSON object, as the dict the code calls [.get] on. *)
Abbreviation dict := (list (string * json)).

(** The subclasses of [Exception] that occur.  [OtherError] stands for the
    exceptions of the collaborators (requests, the Telegram clients, qrcode,
    the file system), with their class name and [str(e)]. *)
Inductive exn : Type :=
  | ValueError (msg : string)
  | TypeError (msg : string)
  | IndexError (msg : string)
  | RuntimeError (msg : string)
  | OtherError (cls msg : string).

(** [str(e)] *)
Definition exn_str (e : exn) : string :=
  match e with
  | ValueError m | TypeError m | IndexError m | RuntimeError m => m
  | OtherError _ m => m
  end.

Inductive result (A : Type) : Type :=
  | Ok (a : A)
  | Raise (e : exn).
Arguments Ok {A} a.
Arguments Raise {A} e.

Definition rbind {A B} (r : result A) (k : A -> result B) : result B :=
  match r with
  | Ok a => k a
  | Raise e => Raise e
  end.

Notation "x <- r ;; k" := (rbind r (fun x => k))
  (at level 100, r at next level, right associativity, only parsing).

Definition is_ok {A} (r : result A) : bool :=
  match r with Ok _ => true | Raise _ => false end.

(** The built-ins whose exact behaviour is Python's and not this
    repository's. *)
Class Builtins := {
  (** [str(v)] of a list or a dict *)
  py_repr : json -> string;
  (** [s.split()] *)
  str_split : string -> list string;
  (** [s.strip()] *)
  str_strip : string -> string;
  (** [qrcode.make(uri)] saved as PNG into a buffer *)
  qrcode_png : string -> result string
}.

(** [needle in hay] for two strings *)
Fixpoint str_contains (needle hay : string) : bool :=
  String.prefix needle hay ||
  match hay with
  | EmptyString => false
  | String _ rest => str_contains needle rest
  end.

(** [bool(v)] *)
Definition truthy (v : json) : bool :=
  match v with
  | PNone => false
  | PBool b => b
  | PInt z => negb (z =? 0)
  | PStr s => negb (String.eqb s "")
  | PList l => match l with [] => false | _ => true end
  | PDict d => match d with [] => false | _ => true end
  end.

(** [d.get(key)] and [d.get(key, dflt)] *)
Fixpoint dict_lookup (d : dict) (key : string) : option json :=
  match d with
  | [] => None
  | (k, v) :: rest => if String.eqb k key then Some v else dict_lookup rest key
  end.

Definition dict_get (d : dict) (key : string) : json :=
  default PNone (dict_lookup d key).

Definition dict_get_or (d : dict) (key : string) (dflt : json) : json :=
  default dflt (dict_lookup d key).

(** [needle in v] where [needle] is a string: substring of a string, element
    of a list, key of a dict, [TypeError] on the rest. *)
Definition py_in (needle : string) (v : json) : result bool :=
  match v with
  | PStr s => Ok (str_contains needle s)
  | PList l =>
      Ok (existsb (fun x => match x with
                            | PStr s => String.eqb s needle
                            | _ => false
                            end) l)
  | PDict d => Ok (existsb (fun kv => String.eqb (fst kv) needle) d)
  | PNone => Raise (TypeError "argument of type 'NoneType' is not iterable")
  | PBool _ => Raise (TypeError "argument of type 'bool' is not iterable")
  | PInt _ => Raise (TypeError "argument of type 'int' is not iterable")
  end.

(** [f"{v}"] *)
Definition py_str `{Builtins} (v : json) : string :=
  match v with
  | PNone => "None"
  | PBool true => "True"
  | PBool false => "False"
  | PInt z => pretty z
  | PStr s => s
  | PList _ | PDict _ => py_repr v
  end.

(** A line feed *)
Definition nl : string := String (ascii_of_nat 10) EmptyString.

(** [f"{o}"] for a value of [os.getenv] *)
Definition opt_str (o : option string) : string := default "None" o.

(** [s.rstrip("/")] *)
Fixpoint rstrip_slash (s : string) : string :=
  match s with
  | EmptyString => EmptyString
  | String c rest =>
      match rstrip_slash rest with
      | EmptyString => if Ascii.eqb c "/" then EmptyString else String c EmptyString
      | r => String c r
      end
  end.

(** The invoice JSON of the gateway, [GET /invoices/{id}]: the three places
    the code reads.  [paymentMethods] is [checkout.paymentMethods], empty when
    either key is absent. *)
Record invoice := {
  status : json;
  checkoutLink : json;
  paymentMethods : list dict
}.

(** ** Effects: a trace of outside calls over some global state *)

Section Effects.
Context {G C : Type}.

(** A computation over the module's globals [G] and the calls [C] made so
    far; an exception leaves both as they were when it was raised. *)
Definition M (A : Type) : Type := G * list C -> result A * (G * list C).

Definition ret {A} (a : A) : M A := fun s => (Ok a, s).

Definition raise {A} (e : exn) : M A := fun s => (Raise e, s).

Definition bind {A B} (m : M A) (k : A -> M B) : M B :=
  fun s => match m s with
           | (Ok a, s') => k a s'
           | (Raise e, s') => (Raise e, s')
           end.

(** [try: m] / [except Exception as e: h e] *)
Definition try_except {A} (m : M A) (h : exn -> M A) : M A :=
  fun s => match m s with
           | (Ok a, s') => (Ok a, s')
           | (Raise e, s') => h e s'
           end.

Definition lift {A} (r : result A) : M A := fun s => (r, s).

Definition globals : M G := fun s => (Ok (fst s), s).

Definition set_globals (g : G) : M unit := fun s => (Ok tt, (g, snd s)).

(** Make the call [c]; the world answers from the calls before it. *)
Definition perform {A} (c : C) (answer : list C -> result A) : M A :=
  fun s => (answer (snd s), (fst s, (snd s ++ [c])%list)).

End Effects.

Notation "x <~ m ;; k" := (bind m (fun x => k))
  (at level 100, m at next level, right associativity, only parsing).
Notation "m ;;; k" := (bind m (fun _ => k))
  (at level 100, right associativity, only parsing).

(** ** bot_groups.py *)

Module BotGroups.

Record config := {
  BTCPAY_URL : string;
  BTCPAY_API_KEY : option string;
  BTCPAY_STORE_ID : option string
}.

Inductive call :=
  | HttpGet (url : string) (headers : list (string * string))
  | Reply (message_id : Z) (text : string)
  | WriteFile (path : string) (data : string)
  | ReplyPhoto (message_id : Z) (path : string) (caption : string).

Record world := {
  requests_get : list call -> string -> result invoice;
  send_reply : list call -> Z -> string -> result unit;
  write_file : list call -> string -> result unit;
  send_reply_photo : list call -> Z -> string -> result unit
}.

Record Message := { message_id : Z; from_user_id : Z; text : string }.

Section Code.
Context `{Builtins} (W : world).

Local Abbreviation M := (@M config call).

(** [not o] for a value of [os.getenv] *)
Definition not_str (o : option string) : bool :=
  match o with None => true | Some s => String.eqb s "" end.

(** Lines 36-42 *)
Definition _headers : M (list (string * string)) :=
  cfg <~ globals ;;
  if not_str (BTCPAY_API_KEY cfg) || not_str (BTCPAY_STORE_ID cfg) then
    raise (RuntimeError "❌ Missing BTCPAY_API_KEY or BTCPAY_STORE_ID in .env")
  else
    ret [("Authorization", "token " +:+ opt_str (BTCPAY_API_KEY cfg));
         ("Content-Type", "application/json")].

Definition _store_base_url : M string :=
  cfg <~ globals ;;
  ret (BTCPAY_URL cfg +:+ "/api/v1/stores/" +:+ opt_str (BTCPAY_STORE_ID cfg)).

(** Lines 58-62; [raise_for_status] and [resp.json()] are the world's answer. *)
Definition get_invoice (invoice_id : string) : M invoice :=
  base <~ _store_base_url ;;
  let url := base +:+ "/invoices/" +:+ invoice_id in
  headers <~ _headers ;;
  perform (HttpGet url headers) (fun h => requests_get W h url).

(** ["Lightning" in m.get("paymentMethod", "")] *)
Definition is_lightning (m : dict) : result bool :=
  py_in "Lightning" (dict_get_or m "paymentMethod" (PStr "")).

(** The loop of lines 76-79: the first method that passes the test. *)
Fixpoint first_lightning (methods : list dict) : result (option dict) :=
  match methods with
  | [] => Ok None
  | m :: rest =>
      b <- is_lightning m ;;
      if b then Ok (Some m) else first_lightning rest
  end.

(** [methods[0]] *)
Definition first_method (methods : list dict) : result dict :=
  match methods with
  | m :: _ => Ok m
  | [] => Raise (IndexError "list index out of range")
  end.

(** Lines 74-81: which method the URI is built from.  [not chosen] holds of
    [None] and of an empty dict. *)
Definition select_method (prefer_lightning : bool) (methods : list dict)
  : result dict :=
  chosen <- (if prefer_lightning then first_lightning methods else Ok None) ;;
  match chosen with
  | Some m => if negb (truthy (PDict m)) then first_method methods else Ok m
  | None => first_method methods
  end.

(** Lines 83-93: the URI of the chosen method. *)
Definition payment_uri (chosen : dict) : result string :=
  let address := dict_get chosen "destination" in
  if negb (truthy address) then
    Raise (ValueError "No payment destination found.")
  else
    let amount := dict_get chosen "amount" in
    ln <- is_lightning chosen ;;
    if ln then Ok ("lightning:" +:+ py_str address)
    else
      let uri := "bitcoin:" +:+ py_str address in
      if truthy amount then Ok (uri +:+ "?amount=" +:+ py_str amount)
      else Ok uri.

(** Lines 64-99: fetch, check, select, build the URI, encode it. *)
Definition generate_payment_qr (invoice_id : string) (prefer_lightning : bool)
  : M (string * string) :=
  inv <~ get_invoice invoice_id ;;
  let methods := paymentMethods inv in
  match methods with
  | [] => raise (ValueError "No payment methods found in invoice.")
  | _ =>
      chosen <~ lift (select_method prefer_lightning methods) ;;
      uri <~ lift (payment_uri chosen) ;;
      buf <~ lift (qrcode_png uri) ;;
      ret (buf, uri)
  end.

(** [/pay <invoice_id>], lines 122-150.  Nothing is deleted afterwards. *)
Definition cmd_pay (message : Message) : M unit :=
  let args := str_split (str_strip (text message)) in
  if (length args <? 2)%nat then
    perform (Reply (message_id message) "⚠️ Usage: /pay <invoice_id>")
            (fun h => send_reply W h (message_id message) "⚠️ Usage: /pay <invoice_id>")
  else
    let invoice_id := nth 1 args "" in
    try_except
      (qr <~ generate_payment_qr invoice_id false ;;
       let tmp_file := "/tmp/" +:+ invoice_id +:+ ".png" in
       perform (WriteFile tmp_file (fst qr)) (fun h => write_file W h tmp_file) ;;;
       let caption := "💳 Payment QR for invoice `" +:+ invoice_id +:+ "`" +:+ nl +:+ nl
                      +:+ "👉 URI: `" +:+ snd qr +:+ "`" in
       perform (ReplyPhoto (message_id message) tmp_file caption)
               (fun h => send_reply_photo W h (message_id message) caption))
      (fun e =>
         let err := "❌ Error: " +:+ exn_str e in
         perform (Reply (message_id message) err)
                 (fun h => send_reply W h (message_id message) err)).

End Code.
End BotGroups.

(** ** btcpay.py *)

Module Btcpay.

Record config := {
  BTCPAY_URL : string;
  BTCPAY_API_KEY : option string;
  BTCPAY_STORE_ID : option string
}.

(** Lines 27-32, what importing the module does with [os.environ] (after
    [load_dotenv()]): three reads, no check. *)
Definition import_module (environ : gmap string string) : result config :=
  Ok {| BTCPAY_URL :=
          rstrip_slash (default "https://mainnet.demo.btcpayserver.org"
                                (environ !! "BTCPAY_URL"));
        BTCPAY_API_KEY := environ !! "BTCPAY_API_KEY";
        BTCPAY_STORE_ID := environ !! "BTCPAY_STORE_ID" |}.

Inductive call :=
  | HttpPost (url : string) (payload : json) (headers : list (string * string))
  | HttpGet (url : string) (headers : list (string * string)).

Record world := {
  requests_post : list call -> string -> json -> result invoice;
  requests_get : list call -> string -> result invoice
}.

Section Code.
Context `{Builtins} (W : world).

Local Abbreviation M := (@M config call).

Definition not_str (o : option string) : bool :=
  match o with None => true | Some s => String.eqb s "" end.

Definition _require_env : M unit :=
  cfg <~ globals ;;
  let missing :=
    map fst (List.filter (fun nv => not_str (snd nv))
                         [("BTCPAY_API_KEY", BTCPAY_API_KEY cfg);
                          ("BTCPAY_STORE_ID", BTCPAY_STORE_ID cfg)]) in
  match missing with
  | [] => ret tt
  | _ => raise (RuntimeError ("Missing env var(s): " +:+ String.concat ", " missing
                              +:+ ". Add them to your .env file."))
  end.

Definition _headers : M (list (string * string)) :=
  _require_env ;;;
  cfg <~ globals ;;
  ret [("Authorization", "token " +:+ opt_str (BTCPAY_API_KEY cfg));
       ("Content-Type", "application/json")].

Definition _store_base_url : M string :=
  cfg <~ globals ;;
  ret (BTCPAY_URL cfg +:+ "/api/v1/stores/" +:+ opt_str (BTCPAY_STORE_ID cfg)).

(** [amount] is the float argument as [str(amount)] renders it, which is all
    the function does with it. *)
Definition create_invoice (escrow_id amount currency : string)
    (buyer_email : option string) : M invoice :=
  base <~ _store_base_url ;;
  let url := base +:+ "/invoices" in
  let metadata :=
    (("escrow_id", PStr escrow_id) ::
     match buyer_email with
     | Some e => if String.eqb e "" then [] else [("buyerEmail", PStr e)]
     | None => []
     end)%list in
  let payload :=
    PDict [("amount", PStr amount); ("currency", PStr currency);
           ("metadata", PDict metadata)] in
  headers <~ _headers ;;
  perform (HttpPost url payload headers) (fun h => requests_post W h url payload).

Definition get_invoice (invoice_id : string) : M invoice :=
  base <~ _store_base_url ;;
  let url := base +:+ "/invoices/" +:+ invoice_id in
  headers <~ _headers ;;
  perform (HttpGet url headers) (fun h => requests_get W h url).

Definition is_invoice_paid (invoice_id : string) : M bool :=
  inv <~ get_invoice invoice_id ;;
  ret match status inv with
      | PStr s => String.eqb s "Settled"
      | _ => false
      end.

(** Lines 110-118: the BIP21 URI of the first method. *)
Definition bitcoin_uri (pm0 : dict) : result string :=
  let address := dict_get pm0 "destination" in
  if negb (truthy address) then
    Raise (ValueError "No payment address found in invoice.")
  else
    let amount := dict_get pm0 "amount" in
    let uri := "bitcoin:" +:+ py_str address in
    Ok (if truthy amount then uri +:+ "?amount=" +:+ py_str amount else uri).

(** Lines 98-125: always the first method, always a [bitcoin:] URI. *)
Definition generate_payment_qr (invoice_id : string) : M string :=
  inv <~ get_invoice invoice_id ;;
  match paymentMethods inv with
  | [] => raise (ValueError "No payment methods found in invoice.")
  | pm0 :: _ =>
      uri <~ lift (bitcoin_uri pm0) ;;
      lift (qrcode_png uri)
  end.

End Code.
End Btcpay.

(** ** bot.py *)

Module Bot.

(** A value of [user_roles]: [{"role": ..., "address": ...}] *)
Record participant := { role : string; address : string }.

(** The module's globals: the gateway settings read at import and the
    in-memory registry [user_roles], keyed by Telegram user id. *)
Record state := {
  BTCPAY_URL : string;
  BTCPAY_API_KEY : option string;
  BTCPAY_STORE_ID : option string;
  user_roles : gmap Z participant
}.

Definition set_user_roles (r : gmap Z participant) (g : state) : state :=
  {| BTCPAY_URL := BTCPAY_URL g; BTCPAY_API_KEY := BTCPAY_API_KEY g;
     BTCPAY_STORE_ID := BTCPAY_STORE_ID g; user_roles := r |}.

Inductive call :=
  | HttpGet (url : string) (headers : list (string * string))
  | Reply (message_id : Z) (text : string)
  | AnswerPhoto (chat_id : Z) (png : string) (caption : string)
  | Sleep (seconds : Z)
  | Delete (message_id : Z).

Record world := {
  requests_get : list call -> string -> result invoice;
  send_reply : list call -> Z -> string -> result unit;
  (** the id of the message that was sent *)
  send_answer_photo : list call -> Z -> string -> result Z;
  delete_message : list call -> Z -> result unit
}.

Record Message := {
  message_id : Z;
  chat_id : Z;
  from_user_id : Z;
  text : string
}.

Section Code.
Context `{Builtins} (W : world).

Local Abbreviation M := (@M state call).

(** Lines 32-33: no check of the settings here. *)
Definition _headers : M (list (string * string)) :=
  g <~ globals ;;
  ret [("Authorization", "token " +:+ opt_str (BTCPAY_API_KEY g));
       ("Content-Type", "application/json")].

Definition _store_base_url : M string :=
  g <~ globals ;;
  ret (BTCPAY_URL g +:+ "/api/v1/stores/" +:+ opt_str (BTCPAY_STORE_ID g)).

Definition get_invoice (invoice_id : string) : M invoice :=
  base <~ _store_base_url ;;
  let url := base +:+ "/invoices/" +:+ invoice_id in
  headers <~ _headers ;;
  perform (HttpGet url headers) (fun h => requests_get W h url).

(** Lines 53-57: the URI of the first method; the destination is formatted
    as it comes. *)
Definition bitcoin_uri (pm0 : dict) : string :=
  let address := dict_get pm0 "destination" in
  let amount := dict_get pm0 "amount" in
  let uri := "bitcoin:" +:+ py_str address in
  if truthy amount then uri +:+ "?amount=" +:+ py_str amount else uri.

Definition generate_payment_qr (invoice_id : string) : M string :=
  inv <~ get_invoice invoice_id ;;
  match paymentMethods inv with
  | [] => raise (ValueError "No payment methods in invoice")
  | pm0 :: _ => lift (qrcode_png (bitcoin_uri pm0))
  end.

Definition reply (message : Message) (body : string) : M unit :=
  perform (Reply (message_id message) body)
          (fun h => send_reply W h (message_id message) body).

(** The caption of lines 146-149 *)
Definition pay_caption (invoice_id : string) (checkout_url : json) : string :=
  "💳 <b>Invoice Payment</b>" +:+ nl +:+
  "ID: <code>" +:+ invoice_id +:+ "</code>" +:+ nl +:+ nl +:+
  "Pay here: " +:+ py_str checkout_url +:+ nl +:+ nl +:+
  "(This message will auto-delete in 60s)".

(** [/pay <invoice_id>], lines 131-156 *)
Definition cmd_pay (message : Message) : M unit :=
  let parts := str_split (text message) in
  if (length parts <? 2)%nat then reply message "⚠️ Usage: /pay <invoice_id>"
  else
    let invoice_id := nth 1 parts "" in
    try_except
      (inv <~ get_invoice invoice_id ;;
       let checkout_url := checkoutLink inv in
       qr_buf <~ generate_payment_qr invoice_id ;;
       let caption := pay_caption invoice_id checkout_url in
       msg <~ perform (AnswerPhoto (chat_id message) qr_buf caption)
                      (fun h => send_answer_photo W h (chat_id message) caption) ;;
       perform (Sleep 60) (fun _ => Ok tt) ;;;
       perform (Delete msg) (fun h => delete_message W h msg) ;;;
       perform (Delete (message_id message))
               (fun h => delete_message W h (message_id message)))
      (fun e => reply message ("❌ Error: " +:+ exn_str e)).

(** [user_roles[message.from_user.id] = {"role": r, "address": wallet}] *)
Definition store_role (message : Message) (r wallet : string) : M unit :=
  g <~ globals ;;
  set_globals
    (set_user_roles
       (<[from_user_id message := {| role := r; address := wallet |}]> (user_roles g)) g).

(** [/seller <WALLET_ADDRESS>], lines 182-191 *)
Definition cmd_seller (message : Message) : M unit :=
  let parts := str_split (text message) in
  if (length parts <? 2)%nat then reply message "⚠️ Usage: /seller <WALLET_ADDRESS>"
  else
    let wallet := nth 1 parts "" in
    store_role message "seller" wallet ;;;
    reply message ("✅ You are now registered as a <b>SELLER</b>." +:+ nl +:+
                   "Wallet: <code>" +:+ wallet +:+ "</code>").

(** [/buyer <WALLET_ADDRESS>], lines 194-203 *)
Definition cmd_buyer (message : Message) : M unit :=
  let parts := str_split (text message) in
  if (length parts <? 2)%nat then reply message "⚠️ Usage: /buyer <WALLET_ADDRESS>"
  else
    let wallet := nth 1 parts "" in
    store_role message "buyer" wallet ;;;
    reply message ("✅ You are now registered as a <b>BUYER</b>." +:+ nl +:+
                   "Wallet: <code>" +:+ wallet +:+ "</code>").

End Code.
End Bot.

(** ** app_tdlib.py *)

Module AppTdlib.

Record state := {
  GROUP_BASE_NAME : string;
  BOT_USERNAME_CACHE : option string
}.

(** The [ChatPrivileges] passed to [promote_chat_member] *)
Record ChatPrivileges := {
  can_manage_chat : bool;
  can_delete_messages : bool;
  can_manage_video_chats : bool;
  can_invite_users : bool;
  can_pin_messages : bool;
  can_restrict_members : bool;
  can_change_info : bool;
  can_promote_members : bool
}.

Inductive call :=
  | GetMe
  | RandomChoice (alphabet : string)
  | CreateSupergroup (title description : string)
  | AddChatMembers (chat_id : Z) (user_ids : list string)
  | PromoteChatMember (chat_id : Z) (user_id : string) (privileges : ChatPrivileges)
  | ExportChatInviteLink (chat_id : Z)
  | CreateChatInviteLink (chat_id : Z).

Record world := {
  (** [(await bot.get_me()).username] *)
  bot_get_me : list call -> result (option string);
  (** the position [random.choice] draws *)
  random_index : list call -> nat;
  (** [(await user.create_supergroup(...)).id] *)
  user_create_supergroup : list call -> string -> result Z;
  user_add_chat_members : list call -> Z -> list string -> result unit;
  user_promote_chat_member : list call -> Z -> string -> result unit;
  user_export_chat_invite_link : list call -> Z -> result string;
  (** [(await user.create_chat_invite_link(chat.id)).invite_link] *)
  user_create_chat_invite_link : list call -> Z -> result string
}.

Definition ascii_lowercase : string := "abcdefghijklmnopqrstuvwxyz".

Section Code.
Context (W : world).

Local Abbreviation M := (@M state call).

Definition not_str (o : option string) : bool :=
  match o with None => true | Some s => String.eqb s "" end.

(** [random.choice(alphabet)] *)
Definition random_choice (alphabet : string) : M ascii :=
  perform (RandomChoice alphabet)
          (fun h => Ok (default "a"%char
                          (String.get (random_index W h mod String.length alphabet)%nat
                                      alphabet))).

(** Lines 52-56 *)
Fixpoint generate_suffix (length : nat) : M string :=
  match length with
  | O => ret EmptyString
  | S n =>
      c <~ random_choice ascii_lowercase ;;
      rest <~ generate_suffix n ;;
      ret (String c rest)
  end.

(** Lines 58-109 *)
Definition create_new_group : M (string * string * Z) :=
  g <~ globals ;;
  (if not_str (BOT_USERNAME_CACHE g) then
     me <~ perform GetMe (bot_get_me W) ;;
     set_globals {| GROUP_BASE_NAME := GROUP_BASE_NAME g; BOT_USERNAME_CACHE := me |}
   else ret tt) ;;;
  code <~ generate_suffix 5 ;;
  g <~ globals ;;
  let title := GROUP_BASE_NAME g +:+ " #" +:+ code in
  let description := "Escrow room created by WealthEscrowBot" in
  chat <~ perform (CreateSupergroup title description)
                  (fun h => user_create_supergroup W h title) ;;
  let bot_name := "@" +:+ opt_str (BOT_USERNAME_CACHE g) in
  try_except
    (perform (AddChatMembers chat [bot_name])
             (fun h => user_add_chat_members W h chat [bot_name]))
    (fun _ => ret tt) ;;;
  try_except
    (let privileges :=
       {| can_manage_chat := true; can_delete_messages := true;
          can_manage_video_chats := true; can_invite_users := true;
          can_pin_messages := true; can_restrict_members := true;
          can_change_info := true; can_promote_members := false |} in
     perform (PromoteChatMember chat bot_name privileges)
             (fun h => user_promote_chat_member W h chat bot_name))
    (fun _ => ret tt) ;;;
  invite_link <~
    try_except
      (perform (ExportChatInviteLink chat)
               (fun h => user_export_chat_invite_link W h chat))
      (fun _ => perform (CreateChatInviteLink chat)
                        (fun h => user_create_chat_invite_link W h chat)) ;;
  ret (invite_link, title, chat).

End Code.

(** A run in which every step has a fixed outcome, as when steps are made to
    fail on purpose; only the random draws may depend on what happened. *)
Record outcomes := {
  of_get_me : result (option string);
  of_random : list call -> nat;
  of_create_supergroup : result Z;
  of_add_chat_members : result unit;
  of_promote_chat_member : result unit;
  of_export_chat_invite_link : result string;
  of_create_chat_invite_link : result string
}.

Definition scripted (o : outcomes) : world :=
  {| bot_get_me := fun _ => of_get_me o;
     random_index := of_random o;
     user_create_supergroup := fun _ _ => of_create_supergroup o;
     user_add_chat_members := fun _ _ _ => of_add_chat_members o;
     user_promote_chat_member := fun _ _ _ => of_promote_chat_member o;
     user_export_chat_invite_link := fun _ _ => of_export_chat_invite_link o;
     user_create_chat_invite_link := fun _ _ => of_create_chat_invite_link o |}.

End AppTdlib.

(** ** app_tdlib.py: what the import does, the handlers, [main] *)

Module AppTdlibMain.

(** The module-level names of lines 21-25 *)
Record settings := {
  API_ID : Z;
  API_HASH : string;
  BOT_TOKEN : string;
  USER_SESSION_STRING : string;
  GROUP_BASE_NAME : string
}.

(** [os.getenv(name, dflt)] *)
Definition getenv (environ : gmap string string) (name dflt : string) : string :=
  default dflt (environ !! name).

(** Lines 20-30.  [py_int] is [int(s)] on a text of the environment;
    [int("0")] is [0]. *)
Definition import_module (py_int : string -> result Z)
    (environ : gmap string string) : result settings :=
  api_id <- (let raw := getenv environ "TG_API_ID" "0" in
             if String.eqb raw "" || String.eqb raw "0" then Ok 0 else py_int raw) ;;
  let api_hash := getenv environ "TG_API_HASH" "" in
  let bot_token := getenv environ "BOT_TOKEN" "" in
  let session := getenv environ "USER_SESSION_STRING" "" in
  let base_name := getenv environ "GROUP_BASE_NAME" "Escrow" in
  if negb (negb (api_id =? 0) && negb (String.eqb api_hash "")
           && negb (String.eqb bot_token "")) then
    Raise (RuntimeError "Missing TG_API_ID / TG_API_HASH / BOT_TOKEN in .env")
  else if String.eqb session "" then
    Raise (RuntimeError "Missing USER_SESSION_STRING in .env (your phone login)")
  else
    Ok {| API_ID := api_id; API_HASH := api_hash; BOT_TOKEN := bot_token;
          USER_SESSION_STRING := session; GROUP_BASE_NAME := base_name |}.

(** The globals of [create_new_group] right after the import (line 49). *)
Definition initial_state (s : settings) : AppTdlib.state :=
  {| AppTdlib.GROUP_BASE_NAME := GROUP_BASE_NAME s;
     AppTdlib.BOT_USERNAME_CACHE := None |}.

(** The calls of the whole program: those of provisioning and those of the
    handlers and of [main]. *)
Inductive call :=
  | Provision (c : AppTdlib.call)
  | Reply (message_id : Z) (text : string) (disable_web_page_preview : bool)
  | SendMessage (chat_id : Z) (text : string)
  | UserStart
  | BotStart
  | Print (text : string)
  | Idle
  | BotStop
  | UserStop.

(** The provisioning calls among [tr], in order. *)
Definition provision_calls (tr : list call) : list AppTdlib.call :=
  flat_map (fun c => match c with Provision c' => [c'] | _ => [] end) tr.

(** The platform answers a provisioning call from the provisioning calls
    made before it. *)
Record world := {
  provisioning : AppTdlib.world;
  send_reply : list call -> Z -> string -> result unit;
  bot_send_message : list call -> Z -> string -> result unit;
  user_start : list call -> result unit;
  bot_start : list call -> result unit;
  idle : list call -> result unit;
  bot_stop : list call -> result unit;
  user_stop : list call -> result unit
}.

Record Message := { message_id : Z; from_user_id : Z; text : string }.

Section Code.
Context (W : world).

Local Abbreviation Provisioning := (@M AppTdlib.state AppTdlib.call).
Local Abbreviation M := (@M AppTdlib.state call).

(** A computation of [AppTdlib] run inside the program: it starts from the
    provisioning calls made so far, and the calls it adds are logged as
    [Provision] calls. *)
Definition within {A} (m : Provisioning A) : M A :=
  fun s =>
    let inner := provision_calls (snd s) in
    match m (fst s, inner) with
    | (r, (g', inner')) =>
        (r, (g', (snd s ++ map Provision (drop (length inner) inner'))%list))
    end.

Definition reply (message : Message) (body : string) (no_preview : bool) : M unit :=
  perform (Reply (message_id message) body no_preview)
          (fun h => send_reply W h (message_id message) body).

Definition send_message (chat_id : Z) (body : string) : M unit :=
  perform (SendMessage chat_id body) (fun h => bot_send_message W h chat_id body).

(** The reply of lines 120-126 *)
Definition created_text (title link : string) : string :=
  "✅ Created Escrow Group <b>" +:+ title +:+ "</b>" +:+ nl +:+ nl +:+
  "🔗 Group Link: " +:+ link +:+ nl +:+ nl +:+
  "Now join this escrow group & forward this message to buyer/seller." +:+ nl +:+ nl +:+
  "Enjoy Safe Escrow 🍻".

(** The message of lines 129-134 *)
Definition welcome_text (title : string) : string :=
  "👋 Welcome to <b>" +:+ title +:+ "</b>!" +:+ nl +:+ nl +:+
  "This group has been created for your escrow transaction. " +:+
  "Please follow the guidelines below carefully.".

(** The message of lines 136-144 *)
Definition notice_text : string :=
  "⚖️ <b>Important Notice</b> ⚖️" +:+ nl +:+ nl +:+
  "In Wealth Escrow groups, our admins @mruppy and @cheflatto can join at any time to ensure everything " +:+
  "runs smoothly and securely. While our escrow process is fully automated through the bot, we also have " +:+
  "active manual monitoring to keep transactions safe." +:+ nl +:+ nl +:+
  "🚨 <b>Important:</b> Escrow groups are only for depositing and releasing payments. " +:+
  "All product discussions and deliveries should be handled privately in DMs.".

(** [/create] in a private chat, lines 112-147 *)
Definition handle_create (message : Message) : M unit :=
  reply message "Creating Escrow Group. Please Wait..." false ;;;
  try_except
    (created <~ within (AppTdlib.create_new_group (provisioning W)) ;;
     let link := fst (fst created) in
     let title := snd (fst created) in
     let chat_id := snd created in
     reply message (created_text title link) true ;;;
     send_message chat_id (welcome_text title) ;;;
     send_message chat_id notice_text)
    (fun e => reply message ("❌ Error creating group: " +:+ exn_str e) false).

(** [/start] in a private chat, lines 150-152 *)
Definition handle_start (message : Message) : M unit :=
  reply message "Welcome! Use /create to open a fresh escrow group." false.

(** Lines 157-165 of [main]: both clients are started and the bot's user
    name is cached. *)
Definition start_up : M unit :=
  perform UserStart (user_start W) ;;;
  perform BotStart (bot_start W) ;;;
  me <~ perform (Provision AppTdlib.GetMe)
                (fun h => AppTdlib.bot_get_me (provisioning W) (provision_calls h)) ;;
  g <~ globals ;;
  set_globals {| AppTdlib.GROUP_BASE_NAME := AppTdlib.GROUP_BASE_NAME g;
                 AppTdlib.BOT_USERNAME_CACHE := me |} ;;;
  perform (Print "Bot is running...") (fun _ => Ok tt).

(** Lines 155-170; the handlers run while [idle] waits. *)
Definition main : M unit :=
  start_up ;;;
  perform Idle (idle W) ;;;
  perform BotStop (bot_stop W) ;;;
  perform UserStop (user_stop W).

End Code.
End AppTdlibMain.

(** ** bot.py: the invite link of the shared group *)

Module BotCreate.

(** [GROUP_CHAT_ID] and [TOPIC_IDS] as the import left them (lines 17-18) *)
Record state := { GROUP_CHAT_ID : Z; TOPIC_IDS : list Z }.

Inductive call :=
  | RandomChoice (seq : list Z)
  | CreateChatInviteLink (chat_id : Z) (name : string) (creates_join_request : bool)
  | Answer (chat_id : Z) (text : string).

Record world := {
  (** the position [random.choice] draws *)
  random_index : list call -> nat;
  (** [(await bot.create_chat_invite_link(...)).invite_link] *)
  bot_create_chat_invite_link : list call -> Z -> string -> result string;
  send_answer : list call -> Z -> string -> result unit
}.

Record Message := { message_id : Z; chat_id : Z }.

Section Code.
Context (W : world).

Local Abbreviation M := (@M state call).

(** [random.choice(seq)] on a non-empty list *)
Definition random_choice (seq : list Z) : M Z :=
  perform (RandomChoice seq)
          (fun h => Ok (nth (random_index W h mod length seq)%nat seq 0)).

(** Lines 67-76 *)
Definition generate_group_invite : M string :=
  g <~ globals ;;
  match TOPIC_IDS g with
  | [] => raise (ValueError "No topic IDs in .env")
  | _ =>
      topic_id <~ random_choice (TOPIC_IDS g) ;;
      let name := "Escrow Topic " +:+ pretty topic_id in
      perform (CreateChatInviteLink (GROUP_CHAT_ID g) name false)
              (fun h => bot_create_chat_invite_link W h (GROUP_CHAT_ID g) name)
  end.

Definition answer (message : Message) (body : string) : M unit :=
  perform (Answer (chat_id message) body)
          (fun h => send_answer W h (chat_id message) body).

(** The button [create_group], lines 119-122; [message] is [call.message]. *)
Definition callback_create_group (message : Message) : M unit :=
  invite <~ generate_group_invite ;;
  answer message ("⚡ Here is your private escrow group link:" +:+ nl +:+ invite).

(** [/create], lines 125-128 *)
Definition cmd_create (message : Message) : M unit :=
  invite <~ generate_group_invite ;;
  answer message ("⚡ Here is your private escrow group link:" +:+ nl +:+ invite).

End Code.
End BotCreate.

(** ** bot_groups.py: the invite link of the shared group *)

Module BotGroupsCreate.

(** [GROUP_CHAT_ID] and [TOPIC_IDS] as the import left them (lines 19-20) *)
Record state := { GROUP_CHAT_ID : Z; TOPIC_IDS : list Z }.

Inductive call :=
  | RandomChoice (seq : list Z)
  | CreateChatInviteLink (chat_id : Z) (name : string) (creates_join_request : bool)
  | Reply (message_id : Z) (text : string).

Record world := {
  random_index : list call -> nat;
  bot_create_chat_invite_link : list call -> Z -> string -> result string;
  send_reply : list call -> Z -> string -> result unit
}.

Record Message := { message_id : Z }.

Section Code.
Context (W : world).

Local Abbreviation M := (@M state call).

Definition random_choice (seq : list Z) : M Z :=
  perform (RandomChoice seq)
          (fun h => Ok (nth (random_index W h mod length seq)%nat seq 0)).

Definition reply (message : Message) (body : string) : M unit :=
  perform (Reply (message_id message) body)
          (fun h => send_reply W h (message_id message) body).

(** [/create], lines 105-120 *)
Definition cmd_create (message : Message) : M unit :=
  g <~ globals ;;
  match TOPIC_IDS g with
  | [] => reply message "❌ No topic IDs configured in .env"
  | _ =>
      topic_id <~ random_choice (TOPIC_IDS g) ;;
      let name := "Escrow Topic " +:+ pretty topic_id in
      invite <~ perform (CreateChatInviteLink (GROUP_CHAT_ID g) name false)
                        (fun h => bot_create_chat_invite_link W h (GROUP_CHAT_ID g) name) ;;
      reply message ("✅ Invite link created for topic " +:+ pretty topic_id +:+ ":"
                     +:+ nl +:+ invite)
  end.

End Code.
End BotGroupsCreate.

(** ** Helpers for stating properties *)

(** [k] slashes *)
Fixpoint slashes (k : nat) : string :=
  match k with
  | O => EmptyString
  | S k' => String "/" (slashes k')
  end.

(** [m] only adds calls to the trace. *)
Definition extends {G C A} (m : @M G C A) : Prop :=
  forall s, exists new, snd (snd (m s)) = (snd s ++ new)%list.

(** [m] leaves the globals as they are. *)
Definition keeps_globals {G C A} (m : @M G C A) : Prop :=
  forall s, fst (snd (m s)) = fst s.

(** The bot's user name a provisioning run works with: the cached one, or
    the answer of the lookup. *)
Definition name_in_use (g : AppTdlib.state) (o : AppTdlib.outcomes) : option string :=
  if AppTdlib.not_str (AppTdlib.BOT_USERNAME_CACHE g) then
    match AppTdlib.of_get_me o with
    | Ok me => me
    | Raise _ => None
    end
  else AppTdlib.BOT_USERNAME_CACHE g.

(** ** The two registration commands as one family *)

Inductive Role := Seller | Buyer.

Definition role_name (r : Role) : string :=
  match r with Seller => "seller" | Buyer => "buyer" end.

Definition register `{Builtins} (W : Bot.world) (r : Role)
  : Bot.Message -> @M Bot.state Bot.call unit :=
  match r with
  | Seller => Bot.cmd_seller W
  | Buyer => Bot.cmd_buyer W
  end.

(** [d] without the key [key] *)
Definition dict_without (key : string) (d : dict) : dict :=
  List.filter (fun kv => negb (String.eqb (fst kv) key)) d.

(** ** Concrete collaborators, for running the code on examples *)

Module Sample.

(** Split at blanks, dropping empty pieces: [str.split()] on texts whose only
    white space is the blank. *)
Fixpoint words (s cur : string) : list string :=
  match s with
  | EmptyString => if String.eqb cur "" then [] else [cur]
  | String c rest =>
      if Ascii.eqb c " " then
        if String.eqb cur "" then words rest "" else cur :: words rest ""
      else words rest (cur +:+ String c EmptyString)
  end.

Definition builtins : Builtins := {|
  py_repr := fun _ => "[...]";
  str_split := fun s => words s "";
  str_strip := fun s => s;
  qrcode_png := fun uri => Ok ("PNG:" +:+ uri)
|}.

Definition btc : dict :=
  [("paymentMethod", PStr "BTC"); ("destination", PStr "bc1qexample");
   ("amount", PStr "0.01")].

Definition btc_no_amount : dict :=
  [("paymentMethod", PStr "BTC"); ("destination", PStr "bc1qexample")].

Definition btc_empty_amount : dict :=
  [("paymentMethod", PStr "BTC"); ("destination", PStr "bc1qexample");
   ("amount", PStr "")].

Definition btc_no_destination : dict :=
  [("paymentMethod", PStr "BTC"); ("amount", PStr "0.01")].

Definition ltc : dict :=
  [("paymentMethod", PStr "LTC"); ("destination", PStr "ltc1qexample");
   ("amount", PStr "1.5")].

Definition ln : dict :=
  [("paymentMethod", PStr "BTC-LightningNetwork"); ("destination", PStr "lnbc1example");
   ("amount", PStr "0.01")].

Definition invoice_of (methods : list dict) : invoice :=
  {| status := PStr "New";
     checkoutLink := PStr "https://pay.example/i/inv_1";
     paymentMethods := methods |}.

Definition groups_config : BotGroups.config :=
  {| BotGroups.BTCPAY_URL := "https://btcpay.example";
     BotGroups.BTCPAY_API_KEY := Some "key";
     BotGroups.BTCPAY_STORE_ID := Some "store" |}.

Definition groups_world (inv : invoice) : BotGroups.world :=
  {| BotGroups.requests_get := fun _ _ => Ok inv;
     BotGroups.send_reply := fun _ _ _ => Ok tt;
     BotGroups.write_file := fun _ _ => Ok tt;
     BotGroups.send_reply_photo := fun _ _ _ => Ok tt |}.

Definition btcpay_config : Btcpay.config :=
  {| Btcpay.BTCPAY_URL := "https://btcpay.example";
     Btcpay.BTCPAY_API_KEY := Some "key";
     Btcpay.BTCPAY_STORE_ID := Some "store" |}.

Definition btcpay_world (inv : invoice) : Btcpay.world :=
  {| Btcpay.requests_post := fun _ _ _ => Ok inv;
     Btcpay.requests_get := fun _ _ => Ok inv |}.

Definition bot_state : Bot.state :=
  {| Bot.BTCPAY_URL := "https://btcpay.example";
     Bot.BTCPAY_API_KEY := Some "key";
     Bot.BTCPAY_STORE_ID := Some "store";
     Bot.user_roles := ∅ |}.

(** Every call succeeds; the photo that is sent gets the id 1001. *)
Definition bot_world (inv : invoice) : Bot.world :=
  {| Bot.requests_get := fun _ _ => Ok inv;
     Bot.send_reply := fun _ _ _ => Ok tt;
     Bot.send_answer_photo := fun _ _ _ => Ok 1001;
     Bot.delete_message := fun _ _ => Ok tt |}.

(** As [bot_world], but the sent photo cannot be deleted any more. *)
Definition bot_world_photo_gone (inv : invoice) : Bot.world :=
  {| Bot.requests_get := fun _ _ => Ok inv;
     Bot.send_reply := fun _ _ _ => Ok tt;
     Bot.send_answer_photo := fun _ _ _ => Ok 1001;
     Bot.delete_message := fun _ id =>
       if id =? 1001 then Raise (OtherError "MessageToDeleteNotFound"
                                            "Message to delete not found")
       else Ok tt |}.

Definition tdlib_state (cache : option string) : AppTdlib.state :=
  {| AppTdlib.GROUP_BASE_NAME := "Escrow"; AppTdlib.BOT_USERNAME_CACHE := cache |}.

Definition flood : exn := OtherError "FloodWait" "A wait of 30 seconds is required".

(** Every step succeeds. *)
Definition all_fine : AppTdlib.outcomes :=
  {| AppTdlib.of_get_me := Ok (Some "WealthEscrowBot");
     AppTdlib.of_random := fun h => length h;
     AppTdlib.of_create_supergroup := Ok (-1001234);
     AppTdlib.of_add_chat_members := Ok tt;
     AppTdlib.of_promote_chat_member := Ok tt;
     AppTdlib.of_export_chat_invite_link := Ok "https://t.me/+primary";
     AppTdlib.of_create_chat_invite_link := Ok "https://t.me/+fallback" |}.

(** Adding and promoting the bot fail, and so does the primary export. *)
Definition only_fallback_link : AppTdlib.outcomes :=
  {| AppTdlib.of_get_me := Ok (Some "WealthEscrowBot");
     AppTdlib.of_random := fun h => length h;
     AppTdlib.of_create_supergroup := Ok (-1001234);
     AppTdlib.of_add_chat_members := Raise flood;
     AppTdlib.of_promote_chat_member := Raise flood;
     AppTdlib.of_export_chat_invite_link := Raise flood;
     AppTdlib.of_create_chat_invite_link := Ok "https://t.me/+fallback" |}.

(** Only the lookup of the bot's own name fails. *)
Definition get_me_fails : AppTdlib.outcomes :=
  {| AppTdlib.of_get_me := Raise flood;
     AppTdlib.of_random := fun h => length h;
     AppTdlib.of_create_supergroup := Ok (-1001234);
     AppTdlib.of_add_chat_members := Ok tt;
     AppTdlib.of_promote_chat_member := Ok tt;
     AppTdlib.of_export_chat_invite_link := Ok "https://t.me/+primary";
     AppTdlib.of_create_chat_invite_link := Ok "https://t.me/+fallback" |}.

Definition message (body : string) : Bot.Message :=
  {| Bot.message_id := 7; Bot.chat_id := -100; Bot.from_user_id := 42;
     Bot.text := body |}.

Definition groups_message (body : string) : BotGroups.Message :=
  {| BotGroups.message_id := 7; BotGroups.from_user_id := 42;
     BotGroups.text := body |}.

(** A platform that answers every provisioning call from a fixed plan. *)
Definition tdlib_world (o : AppTdlib.outcomes) : AppTdlibMain.world :=
  {| AppTdlibMain.provisioning := AppTdlib.scripted o;
     AppTdlibMain.send_reply := fun _ _ _ => Ok tt;
     AppTdlibMain.bot_send_message := fun _ _ _ => Ok tt;
     AppTdlibMain.user_start := fun _ => Ok tt;
     AppTdlibMain.bot_start := fun _ => Ok tt;
     AppTdlibMain.idle := fun _ => Ok tt;
     AppTdlibMain.bot_stop := fun _ => Ok tt;
     AppTdlibMain.user_stop := fun _ => Ok tt |}.

(** As [tdlib_world], but the bot cannot post into groups. *)
Definition tdlib_world_bot_outside (o : AppTdlib.outcomes) : AppTdlibMain.world :=
  {| AppTdlibMain.provisioning := AppTdlib.scripted o;
     AppTdlibMain.send_reply := fun _ _ _ => Ok tt;
     AppTdlibMain.bot_send_message := fun _ _ _ =>
       Raise (OtherError "ChannelPrivate" "The channel is not accessible");
     AppTdlibMain.user_start := fun _ => Ok tt;
     AppTdlibMain.bot_start := fun _ => Ok tt;
     AppTdlibMain.idle := fun _ => Ok tt;
     AppTdlibMain.bot_stop := fun _ => Ok tt;
     AppTdlibMain.user_stop := fun _ => Ok tt |}.

(** The channel cannot be created. *)
Definition no_channel : AppTdlib.outcomes :=
  {| AppTdlib.of_get_me := Ok (Some "WealthEscrowBot");
     AppTdlib.of_random := fun h => length h;
     AppTdlib.of_create_supergroup := Raise flood;
     AppTdlib.of_add_chat_members := Ok tt;
     AppTdlib.of_promote_chat_member := Ok tt;
     AppTdlib.of_export_chat_invite_link := Ok "https://t.me/+primary";
     AppTdlib.of_create_chat_invite_link := Ok "https://t.me/+fallback" |}.

Definition tdlib_message : AppTdlibMain.Message :=
  {| AppTdlibMain.message_id := 7; AppTdlibMain.from_user_id := 42;
     AppTdlibMain.text := "/create" |}.

(** [int] on the one text the examples need *)
Definition int_of_text (s : string) : result Z :=
  if String.eqb s "29198449" then Ok 29198449
  else Raise (ValueError "invalid literal for int() with base 10").

Definition tdlib_environ : gmap string string :=
  list_to_map [("TG_API_ID", "29198449"); ("TG_API_HASH", "1531c0");
               ("BOT_TOKEN", "123456:ABC"); ("USER_SESSION_STRING", "AQAB")].

Definition btcpay_environ : gmap string string :=
  list_to_map [("BTCPAY_URL", "https://btcpay.example//");
               ("BTCPAY_API_KEY", "key"); ("BTCPAY_STORE_ID", "store")].

(** The gateway is down. *)
Definition bot_world_down : Bot.world :=
  {| Bot.requests_get := fun _ _ => Raise (OtherError "ConnectionError" "Connection refused");
     Bot.send_reply := fun _ _ _ => Ok tt;
     Bot.send_answer_photo := fun _ _ _ => Ok 1001;
     Bot.delete_message := fun _ _ => Ok tt |}.

Definition bot_state_unset : Bot.state :=
  {| Bot.BTCPAY_URL := "https://btcpay.example";
     Bot.BTCPAY_API_KEY := None;
     Bot.BTCPAY_STORE_ID := None;
     Bot.user_roles := ∅ |}.


Definition other_message (body : string) : Bot.Message :=
  {| Bot.message_id := 8; Bot.chat_id := -100; Bot.from_user_id := 43;
     Bot.text := body |}.

Definition invite_state (topics : list Z) : BotCreate.state :=
  {| BotCreate.GROUP_CHAT_ID := -1009; BotCreate.TOPIC_IDS := topics |}.

Definition invite_world : BotCreate.world :=
  {| BotCreate.random_index := fun h => 4%nat;
     BotCreate.bot_create_chat_invite_link := fun _ _ _ => Ok "https://t.me/+topic";
     BotCreate.send_answer := fun _ _ _ => Ok tt |}.

Definition invite_message : BotCreate.Message :=
  {| BotCreate.message_id := 7; BotCreate.chat_id := 42 |}.

Definition groups_invite_state (topics : list Z) : BotGroupsCreate.state :=
  {| BotGroupsCreate.GROUP_CHAT_ID := -1009; BotGroupsCreate.TOPIC_IDS := topics |}.

Definition groups_invite_world : BotGroupsCreate.world :=
  {| BotGroupsCreate.random_index := fun h => 4%nat;
     BotGroupsCreate.bot_create_chat_invite_link := fun _ _ _ => Ok "https://t.me/+topic";
     BotGroupsCreate.send_reply := fun _ _ _ => Ok tt |}.

Definition groups_invite_message : BotGroupsCreate.Message :=
  {| BotGroupsCreate.message_id := 7 |}.


End Sample.

(** * Properties *)

(** ** The payment target resolver ([bot_groups.py]) *)

Section Resolver.
Import BotGroups.

(** A method that passes the Lightning test is a non-empty dict, so the
    [if not chosen] of line 80 cannot discard it. *)
Lemma is_lightning_truthy (m : dict) :
  is_lightning m = Ok true -> truthy (PDict m) = true.
Proof.
  destruct m as [|kv m]; [|reflexivity].
  unfold is_lightning, dict_get_or; simpl. discriminate.
Qed.

Lemma first_lightning_app (pre : list dict) (m : dict) (post : list dict) :
  Forall (fun x => is_lightning x = Ok false) pre ->
  is_lightning m = Ok true ->
  first_lightning (pre ++ m :: post)%list = Ok (Some m).
Proof.
  intros Hpre Hm. induction Hpre as [|x pre Hx _ IH]; simpl.
  - now rewrite Hm.
  - now rewrite Hx.
Qed.

Lemma first_lightning_none (methods : list dict) :
  Forall (fun x => is_lightning x = Ok false) methods ->
  first_lightning methods = Ok None.
Proof.
  induction 1 as [|x l Hx _ IH]; simpl; [reflexivity|]. now rewrite Hx.
Qed.

(** What the loop returns is a method of the list that passes the test. *)
Lemma first_lightning_some (methods : list dict) (m : dict) :
  first_lightning methods = Ok (Some m) ->
  In m methods /\ is_lightning m = Ok true.
Proof.
  induction methods as [|x l IH]; simpl; [discriminate|].
  destruct (is_lightning x) as [[|]|e] eqn:Hx; simpl; try discriminate.
  - intros [= <-]. auto.
  - intros Hl. destruct (IH Hl). auto.
Qed.

(** Selection on a non-empty method list: with the Lightning preference on,
    the first method whose label contains "Lightning" is selected wherever it
    stands in the list; with the preference off, or when no label contains
    the marker, the first method of the gateway's ordering is selected. *)
Lemma select_method_lightning_or_first
    (prefer_lightning : bool) (first : dict) (rest : list dict) :
  (forall (pre : list dict) (m : dict) (post : list dict),
      prefer_lightning = true ->
      first :: rest = (pre ++ m :: post)%list ->
      Forall (fun x => is_lightning x = Ok false) pre ->
      is_lightning m = Ok true ->
      select_method prefer_lightning (first :: rest) = Ok m) /\
  (prefer_lightning = false ->
      select_method prefer_lightning (first :: rest) = Ok first) /\
  (Forall (fun x => is_lightning x = Ok false) (first :: rest) ->
      select_method prefer_lightning (first :: rest) = Ok first).
Proof.
  repeat split.
  - intros pre m post -> -> Hpre Hm. unfold select_method.
    rewrite (first_lightning_app _ _ _ Hpre Hm). unfold rbind.
    now rewrite (is_lightning_truthy _ Hm).
  - intros ->. reflexivity.
  - intros Hall. unfold select_method. destruct prefer_lightning; [|reflexivity].
    now rewrite (first_lightning_none _ Hall).
Qed.
End Resolver.

Section ResolverEntry.
Context `{Builtins} (W : BotGroups.world).

(** C1. Resolution of a fetched invoice with a non-empty method list,
    [generate_payment_qr]: with the Lightning preference on and a method
    whose label contains "Lightning", the first such method is the one
    selected, wherever it stands in the list, and what is returned is its URI
    and the QR code of that URI; with the preference off, or when no label
    contains the marker, the same holds of the first method of the gateway's
    ordering. *)
Theorem generate_payment_qr_selects_lightning_or_first
    (invoice_id : string) (prefer_lightning : bool) (inv : invoice)
    (first : dict) (rest : list dict) s s' :
  BotGroups.get_invoice W invoice_id s = (Ok inv, s') ->
  paymentMethods inv = first :: rest ->
  let resolved (m : dict) : result (string * string) * (BotGroups.config * list BotGroups.call) :=
    (uri <- BotGroups.payment_uri m ;;
     buf <- qrcode_png uri ;;
     Ok (buf, uri), s') in
  (forall (pre : list dict) (m : dict) (post : list dict),
      prefer_lightning = true ->
      paymentMethods inv = (pre ++ m :: post)%list ->
      Forall (fun x => BotGroups.is_lightning x = Ok false) pre ->
      BotGroups.is_lightning m = Ok true ->
      BotGroups.select_method prefer_lightning (paymentMethods inv) = Ok m /\
      BotGroups.generate_payment_qr W invoice_id prefer_lightning s = resolved m) /\
  (prefer_lightning = false ->
      BotGroups.select_method prefer_lightning (paymentMethods inv) = Ok first /\
      BotGroups.generate_payment_qr W invoice_id prefer_lightning s = resolved first) /\
  (Forall (fun x => BotGroups.is_lightning x = Ok false) (paymentMethods inv) ->
      BotGroups.select_method prefer_lightning (paymentMethods inv) = Ok first /\
      BotGroups.generate_payment_qr W invoice_id prefer_lightning s = resolved first).
Proof.
  intros Hget Hm resolved.
  assert (forall m,
             BotGroups.select_method prefer_lightning (first :: rest) = Ok m ->
             BotGroups.generate_payment_qr W invoice_id prefer_lightning s = resolved m)
    as Hrun.
  { intros m Hsel. unfold BotGroups.generate_payment_qr, bind.
    rewrite Hget, Hm. unfold lift, ret. rewrite Hsel. unfold resolved.
    destruct (BotGroups.payment_uri m) as [uri|e]; [|reflexivity]. cbn [rbind].
    now destruct (qrcode_png uri). }
  destruct (select_method_lightning_or_first prefer_lightning first rest)
    as (Hfound & Hoff & Hnone).
  rewrite Hm. split; [|split].
  - intros pre m post Hon Hsplit Hpre Hm'.
    pose proof (Hfound pre m post Hon Hsplit Hpre Hm') as Hsel.
    split; [exact Hsel | exact (Hrun m Hsel)].
  - intros Hoff'. split; [exact (Hoff Hoff') | exact (Hrun first (Hoff Hoff'))].
  - intros Hall. split; [exact (Hnone Hall) | exact (Hrun first (Hnone Hall))].
Qed.

End ResolverEntry.

Lemma dict_lookup_without_eq (key : string) (d : dict) :
  dict_lookup (dict_without key d) key = None.
Proof.
  induction d as [|[k v] d IH]; simpl; [reflexivity|].
  destruct (String.eqb k key) eqn:E; simpl; [assumption|].
  now rewrite E.
Qed.

Lemma dict_lookup_without_ne (key other : string) (d : dict) :
  other <> key ->
  dict_lookup (dict_without key d) other = dict_lookup d other.
Proof.
  intros Hne. induction d as [|[k v] d IH]; simpl; [reflexivity|].
  destruct (String.eqb k key) eqn:E; simpl.
  - apply String.eqb_eq in E. subst k.
    destruct (String.eqb key other) eqn:E'; [|assumption].
    apply String.eqb_eq in E'. congruence.
  - now rewrite IH.
Qed.

Section PaymentUri.
Context `{Builtins}.

(** [bot_groups.py]: a selected method without a usable destination stops the
    resolution with the "no destination" error; no URI is built. *)
Lemma payment_uri_no_destination (chosen : dict) :
  truthy (dict_get chosen "destination") = false ->
  BotGroups.payment_uri chosen = Raise (ValueError "No payment destination found.").
Proof. intros Hd. unfold BotGroups.payment_uri. now rewrite Hd. Qed.

(** [btcpay.py]: the same check on the first method. *)
Lemma btcpay_bitcoin_uri_no_destination (pm0 : dict) :
  truthy (dict_get pm0 "destination") = false ->
  Btcpay.bitcoin_uri pm0 = Raise (ValueError "No payment address found in invoice.").
Proof. intros Hd. unfold Btcpay.bitcoin_uri. now rewrite Hd. Qed.

(** [bot.py] has no such check: the missing destination is formatted into the
    URI as the text [None]. *)
Lemma bot_bitcoin_uri_no_destination (pm0 : dict) :
  dict_lookup pm0 "destination" = None ->
  Bot.bitcoin_uri pm0 =
    "bitcoin:None" +:+
    (if truthy (dict_get pm0 "amount")
     then "?amount=" +:+ py_str (dict_get pm0 "amount") else "").
Proof.
  intros Hd.
  assert (dict_get pm0 "destination" = PNone) as Hnone
    by (unfold dict_get; now rewrite Hd).
  unfold Bot.bitcoin_uri. rewrite Hnone. simpl.
  now destruct (truthy _).
Qed.

(** C2, as the code has it.  In [bot_groups.py] a method with a destination
    gives [bitcoin:destination?amount=N] when it is on-chain and carries an
    amount, [bitcoin:destination] when it is on-chain and carries none, and
    [lightning:destination] when its label contains "Lightning", whatever its
    amount.  [bot.py] and [btcpay.py] know no method family: they build the
    [bitcoin:] form, with the amount when there is one, for every label. *)
Theorem payment_uri_by_family (chosen : dict) :
  let destination := dict_get chosen "destination" in
  let amount := dict_get chosen "amount" in
  truthy destination = true ->
  (BotGroups.is_lightning chosen = Ok false -> truthy amount = true ->
     BotGroups.payment_uri chosen =
       Ok ("bitcoin:" +:+ py_str destination +:+ "?amount=" +:+ py_str amount)) /\
  (BotGroups.is_lightning chosen = Ok false -> truthy amount = false ->
     BotGroups.payment_uri chosen = Ok ("bitcoin:" +:+ py_str destination)) /\
  (BotGroups.is_lightning chosen = Ok true ->
     BotGroups.payment_uri chosen = Ok ("lightning:" +:+ py_str destination)) /\
  Bot.bitcoin_uri chosen =
    (if truthy amount
     then "bitcoin:" +:+ py_str destination +:+ "?amount=" +:+ py_str amount
     else "bitcoin:" +:+ py_str destination) /\
  Btcpay.bitcoin_uri chosen = Ok (Bot.bitcoin_uri chosen).
Proof.
  intros destination amount Hd.
  unfold BotGroups.payment_uri, Bot.bitcoin_uri, Btcpay.bitcoin_uri.
  fold destination amount. rewrite Hd. simpl.
  repeat split.
  - intros -> ->. reflexivity.
  - intros -> ->. reflexivity.
  - intros ->. reflexivity.
Qed.

(** C10. A falsy amount (the empty string, [None], [False], [0], an empty
    list or dict) is treated as a missing one: the URI is the one of the same
    method without its amount key, and for an on-chain method with a
    destination it is [bitcoin:destination] with no [?amount=]. *)
Theorem falsy_amount_is_omitted (chosen : dict) (v : json) :
  dict_lookup chosen "amount" = Some v ->
  truthy v = false ->
  BotGroups.payment_uri chosen = BotGroups.payment_uri (dict_without "amount" chosen) /\
  Bot.bitcoin_uri chosen = Bot.bitcoin_uri (dict_without "amount" chosen) /\
  Btcpay.bitcoin_uri chosen = Btcpay.bitcoin_uri (dict_without "amount" chosen) /\
  Bot.bitcoin_uri chosen = "bitcoin:" +:+ py_str (dict_get chosen "destination") /\
  (truthy (dict_get chosen "destination") = true ->
   Btcpay.bitcoin_uri chosen =
     Ok ("bitcoin:" +:+ py_str (dict_get chosen "destination")) /\
   (BotGroups.is_lightning chosen = Ok false ->
    BotGroups.payment_uri chosen =
      Ok ("bitcoin:" +:+ py_str (dict_get chosen "destination")))).
Proof.
  intros Hv Hfalsy.
  assert (dict_get chosen "amount" = v) as Ha
    by (unfold dict_get; now rewrite Hv).
  assert (dict_get (dict_without "amount" chosen) "amount" = PNone) as Ha'
    by (unfold dict_get; now rewrite dict_lookup_without_eq).
  assert (dict_get (dict_without "amount" chosen) "destination"
          = dict_get chosen "destination") as Hd
    by (unfold dict_get; now rewrite dict_lookup_without_ne).
  assert (BotGroups.is_lightning (dict_without "amount" chosen)
          = BotGroups.is_lightning chosen) as Hl
    by (unfold BotGroups.is_lightning, dict_get_or;
        now rewrite dict_lookup_without_ne).
  unfold BotGroups.payment_uri, Bot.bitcoin_uri, Btcpay.bitcoin_uri.
  rewrite Hl, Hd, Ha, Ha', Hfalsy. simpl.
  do 4 (split; [reflexivity|]).
  intros Hdest. rewrite Hdest. simpl. split; [reflexivity|].
  intros Hchain. now rewrite Hchain.
Qed.

End PaymentUri.

(** ** Resolution as a whole: [generate_payment_qr] *)

Section GeneratePaymentQr.
Context `{Builtins}.

(** [bot_groups.py]: once the invoice is fetched, the outcome is the one of
    selection, URI construction and QR encoding, in this order. *)
Lemma generate_payment_qr_fetched (W : BotGroups.world) (invoice_id : string)
    (prefer_lightning : bool) (inv : invoice) (first : dict) (rest : list dict) s s' :
  BotGroups.get_invoice W invoice_id s = (Ok inv, s') ->
  paymentMethods inv = first :: rest ->
  BotGroups.generate_payment_qr W invoice_id prefer_lightning s =
    (chosen <- BotGroups.select_method prefer_lightning (first :: rest) ;;
     uri <- BotGroups.payment_uri chosen ;;
     buf <- qrcode_png uri ;;
     Ok (buf, uri), s').
Proof.
  intros Hget Hm. unfold BotGroups.generate_payment_qr, bind.
  rewrite Hget, Hm. unfold lift, ret.
  destruct (BotGroups.select_method _ _) as [chosen|e]; [|reflexivity]. simpl.
  destruct (BotGroups.payment_uri chosen) as [uri|e]; [|reflexivity]. simpl.
  now destruct (qrcode_png uri).
Qed.

(** C7. An invoice without payment methods makes the resolution fail with
    the "no payment methods" error, for either value of the Lightning
    preference, with nothing done after the invoice was fetched; the same in
    [bot.py] and [btcpay.py]. *)
Theorem no_payment_methods (invoice_id : string) (inv : invoice) :
  paymentMethods inv = [] ->
  (forall W prefer_lightning s s',
      BotGroups.get_invoice W invoice_id s = (Ok inv, s') ->
      BotGroups.generate_payment_qr W invoice_id prefer_lightning s =
        (Raise (ValueError "No payment methods found in invoice."), s')) /\
  (forall W s s',
      Bot.get_invoice W invoice_id s = (Ok inv, s') ->
      Bot.generate_payment_qr W invoice_id s =
        (Raise (ValueError "No payment methods in invoice"), s')) /\
  (forall W s s',
      Btcpay.get_invoice W invoice_id s = (Ok inv, s') ->
      Btcpay.generate_payment_qr W invoice_id s =
        (Raise (ValueError "No payment methods found in invoice."), s')).
Proof.
  intros Hempty. repeat split.
  - intros W p s s' Hget. unfold BotGroups.generate_payment_qr, bind.
    now rewrite Hget, Hempty.
  - intros W s s' Hget. unfold Bot.generate_payment_qr, bind.
    now rewrite Hget, Hempty.
  - intros W s s' Hget. unfold Btcpay.generate_payment_qr, bind.
    now rewrite Hget, Hempty.
Qed.

(** [bot_groups.py]: the destination check ends the resolution; the encoder
    is never reached. *)
Lemma generate_payment_qr_no_destination (W : BotGroups.world)
    (invoice_id : string) (prefer_lightning : bool) (inv : invoice)
    (first : dict) (rest : list dict) (chosen : dict) s s' :
  BotGroups.get_invoice W invoice_id s = (Ok inv, s') ->
  paymentMethods inv = first :: rest ->
  BotGroups.select_method prefer_lightning (first :: rest) = Ok chosen ->
  truthy (dict_get chosen "destination") = false ->
  BotGroups.generate_payment_qr W invoice_id prefer_lightning s =
    (Raise (ValueError "No payment destination found."), s').
Proof.
  intros Hget Hm Hsel Hd.
  rewrite (generate_payment_qr_fetched _ _ _ _ _ _ _ _ Hget Hm), Hsel. simpl.
  now rewrite (payment_uri_no_destination _ Hd).
Qed.

(** [btcpay.py]: likewise for the first method. *)
Lemma btcpay_generate_payment_qr_no_destination (W : Btcpay.world)
    (invoice_id : string) (inv : invoice) (pm0 : dict) (rest : list dict) s s' :
  Btcpay.get_invoice W invoice_id s = (Ok inv, s') ->
  paymentMethods inv = pm0 :: rest ->
  truthy (dict_get pm0 "destination") = false ->
  Btcpay.generate_payment_qr W invoice_id s =
    (Raise (ValueError "No payment address found in invoice."), s').
Proof.
  intros Hget Hm Hd. unfold Btcpay.generate_payment_qr, bind.
  rewrite Hget, Hm. unfold lift.
  now rewrite (btcpay_bitcoin_uri_no_destination _ Hd).
Qed.

(** [bot.py]: the first method's URI goes to the encoder whatever its
    destination is. *)
Lemma bot_generate_payment_qr_fetched (W : Bot.world) (invoice_id : string)
    (inv : invoice) (pm0 : dict) (rest : list dict) s s' :
  Bot.get_invoice W invoice_id s = (Ok inv, s') ->
  paymentMethods inv = pm0 :: rest ->
  Bot.generate_payment_qr W invoice_id s = (qrcode_png (Bot.bitcoin_uri pm0), s').
Proof.
  intros Hget Hm. unfold Bot.generate_payment_qr, bind. now rewrite Hget, Hm.
Qed.

End GeneratePaymentQr.

(** C3, where the code departs from it.  [bot.py] resolves an invoice whose
    only method has no destination without an error: the QR code of
    [bitcoin:None?amount=0.01] is returned.  [bot_groups.py] and [btcpay.py]
    stop with their "no destination" error on the same invoice. *)
Theorem bot_generate_payment_qr_without_destination :
  let inv := Sample.invoice_of [Sample.btc_no_destination] in
  fst (Bot.generate_payment_qr (H := Sample.builtins) (Sample.bot_world inv)
         "inv_1" (Sample.bot_state, []))
    = Ok "PNG:bitcoin:None?amount=0.01" /\
  fst (BotGroups.generate_payment_qr (H := Sample.builtins) (Sample.groups_world inv)
         "inv_1" false (Sample.groups_config, []))
    = Raise (ValueError "No payment destination found.") /\
  fst (Btcpay.generate_payment_qr (H := Sample.builtins) (Sample.btcpay_world inv)
         "inv_1" (Sample.btcpay_config, []))
    = Raise (ValueError "No payment address found in invoice.").
Proof. repeat split. Qed.

(** ** Gateway credentials *)

Section Credentials.
Context `{Builtins}.

(** [btcpay.py]: with a credential missing, [_require_env] raises and leaves
    everything as it was. *)
Lemma require_env_missing (cfg : Btcpay.config) tr :
  Btcpay.not_str (Btcpay.BTCPAY_API_KEY cfg)
    || Btcpay.not_str (Btcpay.BTCPAY_STORE_ID cfg) = true ->
  exists msg, Btcpay._require_env (cfg, tr) = (Raise (RuntimeError msg), (cfg, tr)).
Proof.
  intros Hmiss. unfold Btcpay._require_env, bind, globals; simpl.
  destruct (Btcpay.not_str (Btcpay.BTCPAY_API_KEY cfg));
    destruct (Btcpay.not_str (Btcpay.BTCPAY_STORE_ID cfg));
    try discriminate; simpl; eexists; reflexivity.
Qed.

Lemma require_env_present (cfg : Btcpay.config) tr :
  Btcpay.not_str (Btcpay.BTCPAY_API_KEY cfg)
    || Btcpay.not_str (Btcpay.BTCPAY_STORE_ID cfg) = false ->
  Btcpay._require_env (cfg, tr) = (Ok tt, (cfg, tr)).
Proof.
  intros Hpres. apply orb_false_iff in Hpres as [Ha Hs].
  unfold Btcpay._require_env, bind, globals; simpl. now rewrite Ha, Hs.
Qed.

(** C4, as the code has it.  Importing [btcpay.py] reads the settings and
    never fails.  When the API key or the store id is missing or empty, each
    call of [create_invoice], [get_invoice] and [is_invoice_paid] raises the
    [RuntimeError] of [_require_env], whatever happened before, and sends no
    request; [get_invoice] of [bot_groups.py] does the same with its own
    message. *)
Theorem missing_credentials_raise_on_every_call (environ : gmap string string) :
  Btcpay.not_str (environ !! "BTCPAY_API_KEY")
    || Btcpay.not_str (environ !! "BTCPAY_STORE_ID") = true ->
  exists cfg msg,
    Btcpay.import_module environ = Ok cfg /\
    (forall W tr invoice_id,
        Btcpay.get_invoice W invoice_id (cfg, tr)
          = (Raise (RuntimeError msg), (cfg, tr))) /\
    (forall W tr invoice_id,
        Btcpay.is_invoice_paid W invoice_id (cfg, tr)
          = (Raise (RuntimeError msg), (cfg, tr))) /\
    (forall W tr escrow_id amount currency buyer_email,
        Btcpay.create_invoice W escrow_id amount currency buyer_email (cfg, tr)
          = (Raise (RuntimeError msg), (cfg, tr))) /\
    (forall W tr url invoice_id,
        let cfg' := {| BotGroups.BTCPAY_URL := url;
                       BotGroups.BTCPAY_API_KEY := environ !! "BTCPAY_API_KEY";
                       BotGroups.BTCPAY_STORE_ID := environ !! "BTCPAY_STORE_ID" |} in
        BotGroups.get_invoice W invoice_id (cfg', tr)
          = (Raise (RuntimeError "❌ Missing BTCPAY_API_KEY or BTCPAY_STORE_ID in .env"),
             (cfg', tr))).
Proof.
  intros Hmiss.
  destruct (Btcpay.import_module environ) as [cfg|e] eqn:Himport;
    [|discriminate Himport].
  injection Himport as Hcfg. exists cfg.
  assert (exists msg, forall tr,
             Btcpay._require_env (cfg, tr) = (Raise (RuntimeError msg), (cfg, tr)))
    as [msg Hreq].
  { unfold Btcpay._require_env, bind, globals; simpl. subst cfg; simpl.
    destruct (Btcpay.not_str (environ !! "BTCPAY_API_KEY"));
      destruct (Btcpay.not_str (environ !! "BTCPAY_STORE_ID"));
      try discriminate; simpl; eexists; reflexivity. }
  exists msg. split; [reflexivity|].
  assert (forall W tr invoice_id,
             Btcpay.get_invoice W invoice_id (cfg, tr)
             = (Raise (RuntimeError msg), (cfg, tr))) as Hget.
  { intros W tr invoice_id.
    unfold Btcpay.get_invoice, Btcpay._headers, Btcpay._store_base_url,
      bind, globals, ret; simpl.
    now rewrite Hreq. }
  repeat split.
  - exact Hget.
  - intros W tr invoice_id. unfold Btcpay.is_invoice_paid, bind. now rewrite Hget.
  - intros W tr escrow_id amount currency buyer_email.
    unfold Btcpay.create_invoice, Btcpay._headers, Btcpay._store_base_url,
      bind, globals, ret; simpl.
    now rewrite Hreq.
  - intros W tr url invoice_id cfg'.
    unfold BotGroups.get_invoice, BotGroups._headers, BotGroups._store_base_url,
      bind, globals, ret, raise; simpl.
    change BotGroups.not_str with Btcpay.not_str. now rewrite Hmiss.
Qed.

End Credentials.

(** ** The role registry and the command handlers ([bot.py]) *)

Section Registry.
Context `{Builtins} (W : Bot.world).

(** What a well-formed registration command does: one write of the whole
    record under the sender's id, then the confirmation reply. *)
Lemma register_run (r : Role) (message : Bot.Message) (s : Bot.state * list Bot.call) :
  (2 <= length (str_split (Bot.text message)))%nat ->
  exists outcome confirmation,
    register W r message s =
      (outcome,
       (Bot.set_user_roles
          (<[Bot.from_user_id message :=
               {| Bot.role := role_name r;
                  Bot.address := nth 1 (str_split (Bot.text message)) "" |}]>
             (Bot.user_roles (fst s)))
          (fst s),
        (snd s ++ [Bot.Reply (Bot.message_id message) confirmation])%list)).
Proof.
  intros Hlen. apply Nat.ltb_ge in Hlen.
  destruct s as [g tr].
  destruct r; simpl; unfold Bot.cmd_seller, Bot.cmd_buyer; rewrite Hlen;
    unfold Bot.store_role, Bot.reply, bind, globals, set_globals, perform; simpl;
    eexists; eexists; reflexivity.
Qed.

(** C5. Registering twice under one identity leaves the registry as the
    second registration alone leaves it; after each command the identity's
    record is the role and the address of that command, never a mix. *)
Theorem reregistration_last_write_wins (r1 r2 : Role) (m1 m2 : Bot.Message)
    (s : Bot.state * list Bot.call) :
  Bot.from_user_id m1 = Bot.from_user_id m2 ->
  (2 <= length (str_split (Bot.text m1)))%nat ->
  (2 <= length (str_split (Bot.text m2)))%nat ->
  let s1 := snd (register W r1 m1 s) in
  let s12 := snd (register W r2 m2 s1) in
  let s2 := snd (register W r2 m2 s) in
  Bot.user_roles (fst s12) = Bot.user_roles (fst s2) /\
  Bot.user_roles (fst s1) !! Bot.from_user_id m1 =
    Some {| Bot.role := role_name r1;
            Bot.address := nth 1 (str_split (Bot.text m1)) "" |} /\
  Bot.user_roles (fst s12) !! Bot.from_user_id m1 =
    Some {| Bot.role := role_name r2;
            Bot.address := nth 1 (str_split (Bot.text m2)) "" |}.
Proof.
  intros Hid Hm1 Hm2 s1 s12 s2.
  destruct (register_run r1 m1 s Hm1) as (o1 & c1 & E1).
  destruct (register_run r2 m2 s Hm2) as (o2 & c2 & E2).
  subst s12 s2. subst s1.
  destruct (register_run r2 m2 (snd (register W r1 m1 s)) Hm2) as (o12 & c12 & E12).
  rewrite E12, E2. rewrite E1. simpl. rewrite Hid.
  split; [apply insert_insert_eq|].
  split; apply lookup_insert_eq.
Qed.

(** Other identities keep their record through a registration. *)
Lemma register_other (r : Role) (message : Bot.Message)
    (s : Bot.state * list Bot.call) (other : Z) :
  other <> Bot.from_user_id message ->
  Bot.user_roles (fst (snd (register W r message s))) !! other =
    Bot.user_roles (fst s) !! other.
Proof.
  intros Hne. destruct s as [g tr]. destruct r; simpl;
    unfold Bot.cmd_seller, Bot.cmd_buyer;
    destruct (_ <? _)%nat; simpl; try reflexivity;
    now rewrite lookup_insert_ne.
Qed.

(** C9. A registration or payment command without an argument is answered
    with the usage text of its command; the globals, the registry among them,
    are those from before and the reply is the only call made. *)
Theorem missing_argument_changes_nothing (message : Bot.Message)
    (s : Bot.state * list Bot.call) :
  (length (str_split (Bot.text message)) < 2)%nat ->
  let answered usage :=
    (Bot.send_reply W (snd s) (Bot.message_id message) usage,
     (fst s, (snd s ++ [Bot.Reply (Bot.message_id message) usage])%list)) in
  Bot.cmd_seller W message s = answered "⚠️ Usage: /seller <WALLET_ADDRESS>" /\
  Bot.cmd_buyer W message s = answered "⚠️ Usage: /buyer <WALLET_ADDRESS>" /\
  Bot.cmd_pay W message s = answered "⚠️ Usage: /pay <invoice_id>".
Proof.
  intros Hlen answered. apply Nat.ltb_lt in Hlen.
  unfold Bot.cmd_seller, Bot.cmd_buyer, Bot.cmd_pay. rewrite Hlen.
  repeat split.
Qed.

End Registry.

(** ** Channel provisioning ([app_tdlib.py]) *)

Section Provisioning.
Import AppTdlib.

(** Drawing the suffix cannot fail and touches no global. *)
Lemma generate_suffix_ok (W : world) (n : nat) (g : state) (tr : list call) :
  exists code tr',
    generate_suffix W n (g, tr) = (Ok code, (g, tr')) /\ String.length code = n.
Proof.
  revert tr. induction n as [|n IH]; intros tr; simpl.
  - exists EmptyString, tr. split; reflexivity.
  - unfold bind, random_choice, perform; simpl.
    destruct (IH (tr ++ [RandomChoice ascii_lowercase])%list) as (code & tr' & E & L).
    rewrite E. eexists; eexists. split; [reflexivity|]. simpl. now rewrite L.
Qed.

Ltac suffix_drawn :=
  match goal with
  | |- context [generate_suffix ?W 5 (?g, ?t)] =>
      let code := fresh "code" in
      let tr' := fresh "tr'" in
      let E := fresh "E" in
      destruct (generate_suffix_ok W 5 g t) as (code & tr' & E & _); rewrite E
  end.

Ltac handle_settled :=
  split; [reflexivity|];
  split;
  [ let Hc := fresh "Hc" in intros Hc; try discriminate Hc; reflexivity
  | let Heq := fresh "Heq" in
    intros ? ? ? Heq; try discriminate Heq;
    injection Heq as <- _ <-; auto ].

(** C6, as the code has it.  Provisioning returns a handle exactly when the
    bot's name is cached or its lookup succeeds, the channel is created, and
    the export of the invite link or else the fallback creation succeeds;
    whether adding and promoting the bot succeed plays no part.  With the
    name cached, channel creation and the two link calls alone decide.  The handle
    carries the id of the created channel and the link of the call that
    succeeded, the export's if both would. *)
Theorem create_new_group_outcome (o : outcomes) (g : state) (tr : list call) :
  let r := fst (create_new_group (scripted o) (g, tr)) in
  is_ok r =
    (negb (not_str (BOT_USERNAME_CACHE g)) || is_ok (of_get_me o))
    && is_ok (of_create_supergroup o)
    && (is_ok (of_export_chat_invite_link o)
        || is_ok (of_create_chat_invite_link o)) /\
  (not_str (BOT_USERNAME_CACHE g) = false ->
   is_ok r =
     is_ok (of_create_supergroup o)
     && (is_ok (of_export_chat_invite_link o)
         || is_ok (of_create_chat_invite_link o))) /\
  (forall link title chat,
      r = Ok (link, title, chat) ->
      of_create_supergroup o = Ok chat /\
      (of_export_chat_invite_link o = Ok link \/
       is_ok (of_export_chat_invite_link o) = false /\
       of_create_chat_invite_link o = Ok link)).
Proof.
  destruct g as [base cache]. destruct o as [me rnd create add promote export fallback].
  unfold create_new_group, bind, globals, set_globals, perform, try_except, ret.
  cbn -[generate_suffix].
  destruct (not_str cache); cbn -[generate_suffix];
    [destruct me as [me|e0]; cbn -[generate_suffix];
       [|handle_settled] |];
    suffix_drawn; cbn;
    (destruct create as [chat|e1]; cbn; [|handle_settled]);
    destruct add, promote, export as [l|e2], fallback as [l'|e3]; cbn;
    handle_settled.
Qed.

End Provisioning.

(** ** The payment command and the deletion of its messages *)

Section PayCommand.
Context `{Builtins} (W : Bot.world).

(** Fetching the invoice is one GET and nothing else. *)
Lemma bot_get_invoice_run (invoice_id : string) (g : Bot.state) (tr : list Bot.call) :
  let url := (Bot.BTCPAY_URL g +:+ "/api/v1/stores/" +:+ opt_str (Bot.BTCPAY_STORE_ID g))
             +:+ "/invoices/" +:+ invoice_id in
  let headers := [("Authorization", "token " +:+ opt_str (Bot.BTCPAY_API_KEY g));
                  ("Content-Type", "application/json")] in
  Bot.get_invoice W invoice_id (g, tr) =
    (Bot.requests_get W tr url, (g, (tr ++ [Bot.HttpGet url headers])%list)).
Proof. reflexivity. Qed.

(** C8, as the code has it.  In [bot.py], once the photo reply is sent the
    handler sleeps 60 seconds and then asks for the deletion of the photo
    message; before the sleep it has only fetched the invoice twice and sent
    the photo.  When that deletion succeeds, the deletion of the command
    message is asked for next; when it raises, the command message is left
    and the error is sent as a reply. *)
Theorem cmd_pay_deletes_after_sleep (message : Bot.Message) (g : Bot.state)
    (tr : list Bot.call) (inv : invoice) (png : string) (msg : Z) s1 s2 :
  let parts := str_split (Bot.text message) in
  let invoice_id := nth 1 parts "" in
  let caption := Bot.pay_caption invoice_id (checkoutLink inv) in
  let shown := (snd s2 ++ [Bot.AnswerPhoto (Bot.chat_id message) png caption])%list in
  (2 <= length parts)%nat ->
  Bot.get_invoice W invoice_id (g, tr) = (Ok inv, s1) ->
  Bot.generate_payment_qr W invoice_id s1 = (Ok png, s2) ->
  Bot.send_answer_photo W (snd s2) (Bot.chat_id message) caption = Ok msg ->
  (exists url headers,
      snd s2 = (tr ++ [Bot.HttpGet url headers; Bot.HttpGet url headers])%list) /\
  exists tail,
    snd (snd (Bot.cmd_pay W message (g, tr))) =
      (shown ++ [Bot.Sleep 60; Bot.Delete msg] ++ tail)%list /\
    (Bot.delete_message W (shown ++ [Bot.Sleep 60])%list msg = Ok tt ->
     exists tail', tail = Bot.Delete (Bot.message_id message) :: tail') /\
    (forall e,
        Bot.delete_message W (shown ++ [Bot.Sleep 60])%list msg = Raise e ->
        tail = [Bot.Reply (Bot.message_id message) ("❌ Error: " +:+ exn_str e)]).
Proof.
  intros parts invoice_id caption shown Hlen Hget Hqr Hphoto.
  apply Nat.ltb_ge in Hlen. split.
  - rewrite bot_get_invoice_run in Hget. injection Hget as _ <-.
    unfold Bot.generate_payment_qr, bind in Hqr.
    rewrite bot_get_invoice_run in Hqr. eexists; eexists.
    destruct (Bot.requests_get W _ _) as [inv2|e] in Hqr; [|discriminate Hqr].
    destruct (paymentMethods inv2) as [|pm0 rest]; [discriminate Hqr|].
    unfold lift in Hqr. injection Hqr as _ <-. simpl.
    now rewrite <- app_assoc.
  - unfold Bot.cmd_pay. fold parts. rewrite Hlen. fold invoice_id.
    unfold try_except, bind. rewrite Hget, Hqr. fold caption.
    destruct s2 as [g2 tr2]. simpl in Hphoto, shown.
    unfold perform at 1; simpl. rewrite Hphoto.
    unfold perform; simpl. fold shown.
    destruct (Bot.delete_message W (shown ++ [Bot.Sleep 60])%list msg) as [[]|e1] eqn:Hd1.
    + destruct (Bot.delete_message W _ (Bot.message_id message)) as [[]|e2]; simpl.
      * exists [Bot.Delete (Bot.message_id message)].
        repeat split; [now rewrite <- !app_assoc | eauto | discriminate].
      * unfold Bot.reply, perform; simpl. eexists.
        repeat split; [rewrite <- !app_assoc; simpl; reflexivity | eauto | discriminate].
    + unfold Bot.reply, perform; simpl. eexists.
      repeat split; [rewrite <- !app_assoc; simpl; reflexivity | discriminate |].
      now intros e [= <-].
Qed.

End PayCommand.

(** * Further properties of the code *)

(** ** Provisioning: the suffix, the title, the calls ([app_tdlib.py]) *)

Section ProvisioningCalls.
Import AppTdlib.

Lemma string_get_in (s : string) (n : nat) (c : ascii) :
  String.get n s = Some c -> In c (list_ascii_of_string s).
Proof.
  revert n. induction s as [|a s IH]; intros n; simpl; [discriminate|].
  destruct n as [|n]; [intros [= <-]; now left | intros Hn; right; eauto].
Qed.

Lemma generate_suffix_run (W : world) (n : nat) (g : state) (tr : list call) :
  exists code,
    generate_suffix W n (g, tr) =
      (Ok code, (g, (tr ++ repeat (RandomChoice ascii_lowercase) n)%list)) /\
    String.length code = n /\
    Forall (fun c => In c (list_ascii_of_string ascii_lowercase))
           (list_ascii_of_string code).
Proof.
  revert tr. induction n as [|n IH]; intros tr.
  - exists EmptyString. simpl. rewrite app_nil_r. repeat split. constructor.
  - destruct (IH (tr ++ [RandomChoice ascii_lowercase])%list) as (code & E & L & F).
    simpl generate_suffix. unfold bind, random_choice, perform.
    cbn [fst snd]. rewrite E.
    eexists. split; [|split].
    + unfold ret. rewrite <- app_assoc. reflexivity.
    + cbn [String.length]. now rewrite L.
    + cbn [list_ascii_of_string]. constructor; [|exact F].
      match goal with
      | |- context [String.get ?i ascii_lowercase] =>
          destruct (String.get i ascii_lowercase) as [c|] eqn:G
      end.
      * exact (string_get_in _ _ _ G).
      * now left.
Qed.

(** X1. The suffix has the asked length and is made of lower-case letters only;
    drawing it makes one [random.choice] call per character, cannot fail and
    leaves the globals alone. *)
Theorem generate_suffix_shape (W : world) (n : nat) (g : state) (tr : list call) :
  exists code,
    generate_suffix W n (g, tr) =
      (Ok code, (g, (tr ++ repeat (RandomChoice ascii_lowercase) n)%list)) /\
    String.length code = n /\
    Forall (fun c => In c (list_ascii_of_string ascii_lowercase))
           (list_ascii_of_string code).
Proof. exact (generate_suffix_run W n g tr). Qed.

End ProvisioningCalls.


Section ProvisioningRuns.
Import AppTdlib.

Ltac suffix_shape :=
  match goal with
  | |- context [generate_suffix ?W 5 (?g, ?t)] =>
      let code := fresh "code" in
      let E := fresh "E" in
      let L := fresh "L" in
      let F := fresh "F" in
      destruct (generate_suffix_run W 5 g t) as (code & E & L & F); rewrite E
  | H : context [generate_suffix ?W 5 (?g, ?t)] |- _ =>
      let code := fresh "code" in
      let E := fresh "E" in
      let L := fresh "L" in
      let F := fresh "F" in
      destruct (generate_suffix_run W 5 g t) as (code & E & L & F);
      rewrite E in H
  end.

Ltac open_run :=
  unfold create_new_group, bind, globals, set_globals, perform, try_except, ret;
  cbn -[generate_suffix].

Ltac by_answers :=
  repeat match goal with
         | |- context [match ?x with Ok _ => _ | Raise _ => _ end] =>
             destruct x eqn:?; cbn
         end.

(** With the name cached, provisioning leaves the globals alone and does not
    look the name up. *)
Lemma create_new_group_cached_run (V : AppTdlib.world) (g : AppTdlib.state)
    (tr : list AppTdlib.call) :
  AppTdlib.not_str (AppTdlib.BOT_USERNAME_CACHE g) = false ->
  exists r new,
    AppTdlib.create_new_group V (g, tr) = (r, (g, (tr ++ new)%list)) /\
    ~ In AppTdlib.GetMe new.
Proof.
  intros Hc. destruct g as [base cache]. cbn in Hc.
  unfold AppTdlib.create_new_group, bind, globals, set_globals, perform,
    try_except, ret.
  cbn -[AppTdlib.generate_suffix]. rewrite Hc. cbn -[AppTdlib.generate_suffix].
  match goal with
  | |- context [AppTdlib.generate_suffix ?V' 5 (?g, ?t)] =>
      destruct (generate_suffix_run V' 5 g t) as (code & E & _ & _); rewrite E
  end.
  cbn.
  repeat match goal with
         | |- context [match ?x with Ok _ => _ | Raise _ => _ end] =>
             destruct x eqn:?; cbn
         end;
    rewrite <- ?app_assoc; cbn; eexists; eexists;
    (split; [reflexivity|]); cbn; intuition discriminate.
Qed.

(** With the name not cached, the lookup is the first call, its answer is
    cached, and the name is not looked up a second time. *)
Lemma create_new_group_lookup_run (V : AppTdlib.world) (g : AppTdlib.state)
    (tr : list AppTdlib.call) (me : option string) :
  AppTdlib.not_str (AppTdlib.BOT_USERNAME_CACHE g) = true ->
  AppTdlib.bot_get_me V tr = Ok me ->
  exists r new,
    AppTdlib.create_new_group V (g, tr)
      = (r, ({| AppTdlib.GROUP_BASE_NAME := AppTdlib.GROUP_BASE_NAME g;
                AppTdlib.BOT_USERNAME_CACHE := me |},
             (tr ++ AppTdlib.GetMe :: new)%list)) /\
    ~ In AppTdlib.GetMe new.
Proof.
  intros Hc Hme. destruct g as [base cache]. cbn in Hc.
  unfold AppTdlib.create_new_group, bind, globals, set_globals, perform,
    try_except, ret.
  cbn -[AppTdlib.generate_suffix]. rewrite Hc. cbn -[AppTdlib.generate_suffix].
  rewrite Hme. cbn -[AppTdlib.generate_suffix].
  match goal with
  | |- context [AppTdlib.generate_suffix ?V' 5 (?g, ?t)] =>
      destruct (generate_suffix_run V' 5 g t) as (code & E & _ & _); rewrite E
  end.
  cbn.
  repeat match goal with
         | |- context [match ?x with Ok _ => _ | Raise _ => _ end] =>
             destruct x eqn:?; cbn
         end;
    rewrite <- ?app_assoc; cbn; eexists; eexists;
    (split; [reflexivity|]); cbn; intuition discriminate.
Qed.

(** X2. The bot's user name is looked up only while it is not cached.  With
    the name cached, a provisioning run makes no [get_me] call and does not
    touch the globals.  With the name not cached, [get_me] is the first call
    of the run and the only lookup; its answer is kept whatever happens
    afterwards, and a failing lookup ends the run at once. *)
Theorem create_new_group_caches_name (W : world) (g : state) (tr : list call) :
  let run := create_new_group W (g, tr) in
  (not_str (BOT_USERNAME_CACHE g) = false ->
   fst (snd run) = g /\
   exists new, snd (snd run) = (tr ++ new)%list /\ ~ In GetMe new) /\
  (not_str (BOT_USERNAME_CACHE g) = true ->
   forall me, bot_get_me W tr = Ok me ->
     fst (snd run) = {| GROUP_BASE_NAME := GROUP_BASE_NAME g;
                        BOT_USERNAME_CACHE := me |} /\
     exists new, snd (snd run) = (tr ++ GetMe :: new)%list /\ ~ In GetMe new) /\
  (not_str (BOT_USERNAME_CACHE g) = true ->
   forall e, bot_get_me W tr = Raise e ->
     run = (Raise e, (g, (tr ++ [GetMe])%list))).
Proof.
  cbn zeta. split; [|split].
  - intros Hc. destruct (create_new_group_cached_run W g tr Hc) as (r & new & E & Hno).
    rewrite E. split; [reflexivity|]. now exists new.
  - intros Hc me Hme.
    destruct (create_new_group_lookup_run W g tr me Hc Hme) as (r & new & E & Hno).
    rewrite E. split; [reflexivity|]. now exists new.
  - intros Hc e He. destruct g as [base cache]. open_run. cbn in Hc. rewrite Hc.
    cbn -[generate_suffix]. rewrite He. reflexivity.
Qed.

(** X3. A handle that is returned carries the configured base name, " #" and
    five lower-case letters as its title; the run has only added calls to the
    trace and has kept the base name. *)
Theorem create_new_group_title (W : world) (g : state) (tr : list call)
    (link title : string) (chat : Z) s' :
  create_new_group W (g, tr) = (Ok (link, title, chat), s') ->
  (exists code,
      title = GROUP_BASE_NAME g +:+ " #" +:+ code /\
      String.length code = 5%nat /\
      Forall (fun c => In c (list_ascii_of_string ascii_lowercase))
             (list_ascii_of_string code)) /\
  GROUP_BASE_NAME (fst s') = GROUP_BASE_NAME g /\
  exists new, snd s' = (tr ++ new)%list.
Proof.
  destruct g as [base cache]. open_run.
  destruct (not_str cache); cbn -[generate_suffix].
  - destruct (bot_get_me W tr) as [me|e]; cbn -[generate_suffix]; [|discriminate].
    suffix_shape. cbn. by_answers; try discriminate;
      intros [= <- <- <- <-]; (split; [eauto|]); (split; [reflexivity|]);
      rewrite <- ?app_assoc; eauto.
  - suffix_shape. cbn. by_answers; try discriminate;
      intros [= <- <- <- <-]; (split; [eauto|]); (split; [reflexivity|]);
      rewrite <- ?app_assoc; eauto.
Qed.

End ProvisioningRuns.


Section ProvisioningSequence.
Import AppTdlib.

Ltac suffix_shape' :=
  match goal with
  | |- context [generate_suffix ?W 5 (?g, ?t)] =>
      let code := fresh "code" in
      let E := fresh "E" in
      let L := fresh "L" in
      destruct (generate_suffix_run W 5 g t) as (code & E & L & _); rewrite E;
      exists code
  end.

(** X4. The calls of a provisioning run, in order: the name lookup when the name
    is not cached, five random draws, the creation of the channel and, only
    when the channel exists, one attempt to add the bot, one to promote it
    (never with the right to promote others) and the export of the link;
    the fallback link is asked for only when the export raised.  Failing to
    add or to promote the bot changes nothing in what follows. *)
Theorem create_new_group_calls (o : outcomes) (g : state) (tr : list call) :
  let run := create_new_group (scripted o) (g, tr) in
  let lookup := if not_str (BOT_USERNAME_CACHE g) then [GetMe] else [] in
  not_str (BOT_USERNAME_CACHE g) = false \/ is_ok (of_get_me o) = true ->
  exists code,
    let title := GROUP_BASE_NAME g +:+ " #" +:+ code in
    let bot := "@" +:+ opt_str (name_in_use g o) in
    let opening :=
      (tr ++ lookup ++ repeat (RandomChoice ascii_lowercase) 5
          ++ [CreateSupergroup title "Escrow room created by WealthEscrowBot"])%list in
    match of_create_supergroup o with
    | Raise e => fst run = Raise e /\ snd (snd run) = opening
    | Ok chat =>
        snd (snd run) =
          (opening
           ++ [AddChatMembers chat [bot];
               PromoteChatMember chat bot
                 {| can_manage_chat := true; can_delete_messages := true;
                    can_manage_video_chats := true; can_invite_users := true;
                    can_pin_messages := true; can_restrict_members := true;
                    can_change_info := true; can_promote_members := false |};
               ExportChatInviteLink chat]
           ++ (if is_ok (of_export_chat_invite_link o) then []
               else [CreateChatInviteLink chat]))%list
    end.
Proof.
  destruct g as [base cache]. destruct o as [me rnd create add promote export fallback].
  unfold name_in_use. cbn zeta. cbn [BOT_USERNAME_CACHE GROUP_BASE_NAME of_get_me
    of_create_supergroup of_export_chat_invite_link].
  intros Hname.
  unfold create_new_group, bind, globals, set_globals, perform, try_except, ret.
  cbn -[generate_suffix repeat].
  destruct (not_str cache) eqn:Hc; cbn -[generate_suffix repeat].
  - destruct me as [me|e0]; [|destruct Hname; discriminate].
    cbn -[generate_suffix repeat]. suffix_shape'.
    destruct create as [chat|e1]; cbn -[repeat];
      [|split; [reflexivity | now rewrite <- !app_assoc]].
    destruct add, promote, export as [l|e2], fallback as [l'|e3]; cbn -[repeat];
      rewrite <- !app_assoc; reflexivity.
  - suffix_shape'.
    destruct create as [chat|e1]; cbn -[repeat];
      [|split; [reflexivity | now rewrite <- !app_assoc]].
    destruct add, promote, export as [l|e2], fallback as [l'|e3]; cbn -[repeat];
      rewrite <- !app_assoc; reflexivity.
Qed.

End ProvisioningSequence.


(** ** The gateway client ([btcpay.py]) *)

Section GatewayUrl.

Lemma append_nil_r (s : string) : s +:+ "" = s.
Proof.
  induction s as [|c s IH]; [reflexivity|].
  change (String c (s +:+ "") = String c s). now rewrite IH.
Qed.

Lemma append_not_nil (t : string) (c : ascii) : t +:+ String c "" <> "".
Proof. destruct t; discriminate. Qed.

Ltac step_append :=
  repeat match goal with
         | |- context [String ?a ?t +:+ ?u] =>
             change (String a t +:+ u) with (String a (t +:+ u))
         | |- context [EmptyString +:+ ?u] => change (EmptyString +:+ u) with u
         | H : context [String ?a ?t +:+ ?u] |- _ =>
             change (String a t +:+ u) with (String a (t +:+ u)) in H
         | H : context [EmptyString +:+ ?u] |- _ =>
             change (EmptyString +:+ u) with u in H
         end.

Lemma rstrip_slash_no_trailing (s t : string) : rstrip_slash s <> t +:+ "/".
Proof.
  revert t. induction s as [|c s IH]; intros t; simpl.
  - intros E. symmetry in E. exact (append_not_nil _ _ E).
  - destruct (rstrip_slash s) as [|c' r] eqn:Er.
    + destruct (Ascii.eqb c "/") eqn:Ec.
      * intros E. symmetry in E. exact (append_not_nil _ _ E).
      * destruct t as [|a t]; step_append; intros E.
        -- injection E as ->. now rewrite Ascii.eqb_refl in Ec.
        -- injection E as _ E. symmetry in E. exact (append_not_nil _ _ E).
    + destruct t as [|a t]; step_append; intros E.
        -- injection E as _ E. discriminate E.
        -- injection E as _ E. exact (IH t E).
Qed.

Lemma rstrip_slash_slashes (s : string) :
  exists k, s = rstrip_slash s +:+ slashes k.
Proof.
  induction s as [|c s [k IH]]; simpl.
  - now exists 0%nat.
  - destruct (rstrip_slash s) as [|c' r] eqn:Er; step_append.
    + destruct (Ascii.eqb c "/") eqn:Ec.
      * apply Ascii.eqb_eq in Ec. subst c. exists (S k). simpl. step_append.
        congruence.
      * exists k. step_append. congruence.
    + exists k. step_append. congruence.
Qed.

(** X5. The gateway address the import keeps is the configured one (or the demo
    server when none is set) without its trailing slashes, and without
    anything else removed: it never ends in a slash, so the request paths
    never get a doubled slash after the host. *)
Theorem import_strips_trailing_slashes (environ : gmap string string)
    (cfg : Btcpay.config) :
  Btcpay.import_module environ = Ok cfg ->
  (forall t, Btcpay.BTCPAY_URL cfg <> t +:+ "/") /\
  (exists k,
      default "https://mainnet.demo.btcpayserver.org" (environ !! "BTCPAY_URL")
      = Btcpay.BTCPAY_URL cfg +:+ slashes k) /\
  (environ !! "BTCPAY_URL" = None ->
   Btcpay.BTCPAY_URL cfg = "https://mainnet.demo.btcpayserver.org").
Proof.
  intros [= <-]. cbn [Btcpay.BTCPAY_URL]. repeat split.
  - intros t. apply rstrip_slash_no_trailing.
  - apply rstrip_slash_slashes.
  - intros ->. reflexivity.
Qed.

End GatewayUrl.


Section GatewayRequests.
Context `{Builtins} (W : Btcpay.world).

Lemma not_str_some (s : string) : s <> "" -> Btcpay.not_str (Some s) = false.
Proof. intros Hs. simpl. now apply String.eqb_neq. Qed.

Lemma btcpay_headers_present (cfg : Btcpay.config) (tr : list Btcpay.call)
    (key store : string) :
  Btcpay.BTCPAY_API_KEY cfg = Some key -> key <> "" ->
  Btcpay.BTCPAY_STORE_ID cfg = Some store -> store <> "" ->
  Btcpay._headers (cfg, tr) =
    (Ok [("Authorization", "token " +:+ key); ("Content-Type", "application/json")],
     (cfg, tr)).
Proof.
  intros Hk Hk' Hs Hs'.
  unfold Btcpay._headers, Btcpay._require_env, bind, globals, ret; simpl.
  rewrite Hk, Hs, (not_str_some _ Hk'), (not_str_some _ Hs'). simpl.
  now rewrite Hk.
Qed.

(** X6. With both credentials set, fetching an invoice and asking whether it is
    paid each send exactly one GET, to
    [<url>/api/v1/stores/<store>/invoices/<id>] with the header
    [Authorization: token <key>]; the gateway's answer, or its error, is
    handed back as it is, and nothing is retried. *)
Theorem btcpay_get_is_one_authorized_request (cfg : Btcpay.config)
    (tr : list Btcpay.call) (key store invoice_id : string) :
  Btcpay.BTCPAY_API_KEY cfg = Some key -> key <> "" ->
  Btcpay.BTCPAY_STORE_ID cfg = Some store -> store <> "" ->
  let url := (Btcpay.BTCPAY_URL cfg +:+ "/api/v1/stores/" +:+ store)
             +:+ "/invoices/" +:+ invoice_id in
  let request :=
    Btcpay.HttpGet url [("Authorization", "token " +:+ key);
                        ("Content-Type", "application/json")] in
  Btcpay.get_invoice W invoice_id (cfg, tr)
    = (Btcpay.requests_get W tr url, (cfg, (tr ++ [request])%list)) /\
  snd (Btcpay.is_invoice_paid W invoice_id (cfg, tr)) = (cfg, (tr ++ [request])%list) /\
  (forall e, Btcpay.requests_get W tr url = Raise e ->
             fst (Btcpay.is_invoice_paid W invoice_id (cfg, tr)) = Raise e).
Proof.
  intros Hk Hk' Hs Hs' url request.
  assert (Btcpay.get_invoice W invoice_id (cfg, tr)
          = (Btcpay.requests_get W tr url, (cfg, (tr ++ [request])%list))) as Hget.
  { unfold Btcpay.get_invoice, bind at 1, Btcpay._store_base_url, bind at 1, globals, ret.
    cbn [fst snd]. rewrite Hs. cbn [opt_str default].
    unfold bind. rewrite (btcpay_headers_present cfg tr key store Hk Hk' Hs Hs').
    reflexivity. }
  split; [exact Hget|].
  unfold Btcpay.is_invoice_paid, bind. rewrite Hget.
  split.
  - now destruct (Btcpay.requests_get W tr url).
  - intros e ->. reflexivity.
Qed.

(** X7. With both credentials set, creating an invoice sends exactly one POST to
    [<url>/api/v1/stores/<store>/invoices], whatever the gateway answers: an
    error is handed back and the request is not repeated.  The body carries
    the amount and the currency as text and the escrow id as metadata; the
    buyer's e-mail is added to the metadata only when it is given and not
    empty. *)
Theorem btcpay_create_invoice_is_one_post (cfg : Btcpay.config)
    (tr : list Btcpay.call) (key store escrow_id amount currency : string)
    (buyer_email : option string) :
  Btcpay.BTCPAY_API_KEY cfg = Some key -> key <> "" ->
  Btcpay.BTCPAY_STORE_ID cfg = Some store -> store <> "" ->
  let url := (Btcpay.BTCPAY_URL cfg +:+ "/api/v1/stores/" +:+ store) +:+ "/invoices" in
  let email :=
    match buyer_email with
    | Some e => if String.eqb e "" then [] else [("buyerEmail", PStr e)]
    | None => []
    end in
  let payload :=
    PDict [("amount", PStr amount); ("currency", PStr currency);
           ("metadata", PDict (("escrow_id", PStr escrow_id) :: email))] in
  Btcpay.create_invoice W escrow_id amount currency buyer_email (cfg, tr)
    = (Btcpay.requests_post W tr url payload,
       (cfg,
        (tr ++ [Btcpay.HttpPost url payload
                  [("Authorization", "token " +:+ key);
                   ("Content-Type", "application/json")]])%list)) /\
  (buyer_email = Some "" -> email = []) /\
  (forall e, buyer_email = Some e -> e <> "" ->
             dict_lookup (("escrow_id", PStr escrow_id) :: email) "buyerEmail"
             = Some (PStr e)).
Proof.
  intros Hk Hk' Hs Hs' url email payload. split; [|split].
  - unfold Btcpay.create_invoice, bind at 1, Btcpay._store_base_url, bind at 1,
      globals, ret.
    cbn [fst snd]. rewrite Hs. cbn [opt_str default].
    unfold bind. rewrite (btcpay_headers_present cfg tr key store Hk Hk' Hs Hs').
    reflexivity.
  - intros ->. reflexivity.
  - intros e -> He. subst email. apply String.eqb_neq in He. rewrite He. reflexivity.
Qed.

(** X8. An invoice counts as paid exactly when the gateway reports the status
    [Settled], spelled so; any other status, or a status that is not a text,
    gives [False] and never an error. *)
Theorem is_invoice_paid_iff_settled (invoice_id : string) s s' :
  (Btcpay.is_invoice_paid W invoice_id s = (Ok true, s') <->
   exists inv, Btcpay.get_invoice W invoice_id s = (Ok inv, s') /\
               status inv = PStr "Settled") /\
  (forall inv, Btcpay.get_invoice W invoice_id s = (Ok inv, s') ->
               status inv <> PStr "Settled" ->
               Btcpay.is_invoice_paid W invoice_id s = (Ok false, s')).
Proof.
  unfold Btcpay.is_invoice_paid, bind, ret. split; [split|].
  - destruct (Btcpay.get_invoice W invoice_id s) as [[inv|e] s1]; [|discriminate].
    intros [= Hst <-]. exists inv. split; [reflexivity|].
    destruct (status inv) as [| | |st| |]; try discriminate.
    apply String.eqb_eq in Hst. now subst.
  - intros (inv & -> & ->). reflexivity.
  - intros inv -> Hne. f_equal. f_equal.
    destruct (status inv) as [| | |st| |]; try reflexivity.
    apply String.eqb_neq. congruence.
Qed.

(** The error of [_require_env] names exactly the settings that are missing
    or empty, the API key before the store id. *)
Lemma require_env_names_the_missing (cfg : Btcpay.config) (tr : list Btcpay.call) :
  let no_key := Btcpay.not_str (Btcpay.BTCPAY_API_KEY cfg) in
  let no_store := Btcpay.not_str (Btcpay.BTCPAY_STORE_ID cfg) in
  let told names :=
    (Raise (RuntimeError ("Missing env var(s): " +:+ names
                          +:+ ". Add them to your .env file.")) : result unit,
     (cfg, tr)) in
  Btcpay._require_env (cfg, tr) =
    match no_key, no_store with
    | true, true => told "BTCPAY_API_KEY, BTCPAY_STORE_ID"
    | true, false => told "BTCPAY_API_KEY"
    | false, true => told "BTCPAY_STORE_ID"
    | false, false => (Ok tt, (cfg, tr))
    end.
Proof.
  cbn zeta. unfold Btcpay._require_env, bind, globals; simpl.
  destruct (Btcpay.not_str (Btcpay.BTCPAY_API_KEY cfg));
    destruct (Btcpay.not_str (Btcpay.BTCPAY_STORE_ID cfg)); reflexivity.
Qed.

End GatewayRequests.


(** ** How the two properties of computations compose *)

Section EffectFrames.
Context {G C : Type}.

Lemma extends_ret {A} (a : A) : extends (G := G) (C := C) (ret a).
Proof. intros s. exists []. simpl. now rewrite app_nil_r. Qed.

Lemma extends_raise {A} (e : exn) : extends (G := G) (C := C) (A := A) (raise e).
Proof. intros s. exists []. simpl. now rewrite app_nil_r. Qed.

Lemma extends_lift {A} (r : result A) : extends (G := G) (C := C) (lift r).
Proof. intros s. exists []. simpl. now rewrite app_nil_r. Qed.

Lemma extends_globals : extends (G := G) (C := C) globals.
Proof. intros s. exists []. simpl. now rewrite app_nil_r. Qed.

Lemma extends_set_globals (g : G) : extends (G := G) (C := C) (set_globals g).
Proof. intros s. exists []. simpl. now rewrite app_nil_r. Qed.

Lemma extends_perform {A} (c : C) (answer : list C -> result A) :
  extends (G := G) (perform c answer).
Proof. intros s. exists [c]. reflexivity. Qed.

Lemma extends_bind {A B} (m : @M G C A) (k : A -> @M G C B) :
  extends m -> (forall a, extends (k a)) -> extends (bind m k).
Proof.
  intros Hm Hk s. unfold bind. destruct (Hm s) as [new E].
  destruct (m s) as [[a|e] s1]; simpl in E.
  - destruct (Hk a s1) as [new' E']. exists (new ++ new')%list.
    now rewrite E', E, app_assoc.
  - now exists new.
Qed.

Lemma extends_try_except {A} (m : @M G C A) (h : exn -> @M G C A) :
  extends m -> (forall e, extends (h e)) -> extends (try_except m h).
Proof.
  intros Hm Hh s. unfold try_except. destruct (Hm s) as [new E].
  destruct (m s) as [[a|e] s1]; simpl in E.
  - now exists new.
  - destruct (Hh e s1) as [new' E']. exists (new ++ new')%list.
    now rewrite E', E, app_assoc.
Qed.

Lemma keeps_ret {A} (a : A) : keeps_globals (G := G) (C := C) (ret a).
Proof. now intros s. Qed.

Lemma keeps_raise {A} (e : exn) : keeps_globals (G := G) (C := C) (A := A) (raise e).
Proof. now intros s. Qed.

Lemma keeps_lift {A} (r : result A) : keeps_globals (G := G) (C := C) (lift r).
Proof. now intros s. Qed.

Lemma keeps_read : keeps_globals (G := G) (C := C) globals.
Proof. now intros s. Qed.

Lemma keeps_perform {A} (c : C) (answer : list C -> result A) :
  keeps_globals (G := G) (perform c answer).
Proof. now intros s. Qed.

Lemma keeps_bind {A B} (m : @M G C A) (k : A -> @M G C B) :
  keeps_globals m -> (forall a, keeps_globals (k a)) -> keeps_globals (bind m k).
Proof.
  intros Hm Hk s. unfold bind. pose proof (Hm s) as E.
  destruct (m s) as [[a|e] s1]; simpl in E; [|exact E].
  now rewrite Hk.
Qed.

Lemma keeps_try_except {A} (m : @M G C A) (h : exn -> @M G C A) :
  keeps_globals m -> (forall e, keeps_globals (h e)) -> keeps_globals (try_except m h).
Proof.
  intros Hm Hh s. unfold try_except. pose proof (Hm s) as E.
  destruct (m s) as [[a|e] s1]; simpl in E; [exact E|].
  now rewrite Hh.
Qed.

End EffectFrames.

Create HintDb effects.
#[export] Hint Resolve extends_ret extends_raise extends_lift extends_globals
  extends_set_globals extends_perform extends_bind extends_try_except
  keeps_ret keeps_raise keeps_lift keeps_read keeps_perform keeps_bind
  keeps_try_except : effects.

(** ** The registry and the handlers of [bot.py], further *)

Section RegistryFrame.
Context `{Builtins} (W : Bot.world).

(** X9. Registrations of two different identities do not interfere: in either
    order they leave the same registry. *)
Theorem registrations_commute (r1 r2 : Role) (m1 m2 : Bot.Message)
    (s : Bot.state * list Bot.call) :
  Bot.from_user_id m1 <> Bot.from_user_id m2 ->
  (2 <= length (str_split (Bot.text m1)))%nat ->
  (2 <= length (str_split (Bot.text m2)))%nat ->
  Bot.user_roles (fst (snd (register W r2 m2 (snd (register W r1 m1 s))))) =
  Bot.user_roles (fst (snd (register W r1 m1 (snd (register W r2 m2 s))))).
Proof.
  intros Hne Hm1 Hm2.
  destruct (register_run W r1 m1 s Hm1) as (o1 & c1 & E1).
  destruct (register_run W r2 m2 s Hm2) as (o2 & c2 & E2).
  destruct (register_run W r2 m2 (snd (register W r1 m1 s)) Hm2) as (o3 & c3 & E3).
  destruct (register_run W r1 m1 (snd (register W r2 m2 s)) Hm1) as (o4 & c4 & E4).
  rewrite E3, E4, E1, E2. simpl. now apply insert_insert_ne.
Qed.

(** X10. Whatever the message, a registration command never removes an entry,
    never changes the entry of anyone but the sender, and never touches the
    gateway settings. *)
Theorem register_keeps_the_rest (r : Role) (message : Bot.Message)
    (s : Bot.state * list Bot.call) :
  let g' := fst (snd (register W r message s)) in
  (forall id, is_Some (Bot.user_roles (fst s) !! id) ->
              is_Some (Bot.user_roles g' !! id)) /\
  (forall id, id <> Bot.from_user_id message ->
              Bot.user_roles g' !! id = Bot.user_roles (fst s) !! id) /\
  Bot.BTCPAY_URL g' = Bot.BTCPAY_URL (fst s) /\
  Bot.BTCPAY_API_KEY g' = Bot.BTCPAY_API_KEY (fst s) /\
  Bot.BTCPAY_STORE_ID g' = Bot.BTCPAY_STORE_ID (fst s).
Proof.
  destruct s as [g tr]. cbn zeta.
  destruct r; simpl; unfold Bot.cmd_seller, Bot.cmd_buyer;
    destruct (_ <? _)%nat; simpl; repeat split; auto;
    try (intros id Hne; now rewrite lookup_insert_ne);
    intros id Hid;
    (destruct (decide (Bot.from_user_id message = id)) as [->|Hne];
     [rewrite lookup_insert_eq; eauto | now rewrite lookup_insert_ne]).
Qed.

(** X11. The payment command never writes to the globals: the registry and the
    gateway settings are the same after it, on every path, and the calls made
    before it stay in the trace. *)
Theorem cmd_pay_keeps_globals (message : Bot.Message) :
  keeps_globals (Bot.cmd_pay W message) /\ extends (Bot.cmd_pay W message).
Proof.
  assert (forall id, keeps_globals (Bot.get_invoice W id)
                     /\ extends (Bot.get_invoice W id)) as Hget.
  { intros id. unfold Bot.get_invoice, Bot._store_base_url, Bot._headers.
    split; auto 10 with effects. }
  assert (forall id, keeps_globals (Bot.generate_payment_qr W id)
                     /\ extends (Bot.generate_payment_qr W id)) as Hqr.
  { intros id. unfold Bot.generate_payment_qr.
    split; (apply keeps_bind || apply extends_bind); try apply Hget;
      intros inv; destruct (paymentMethods inv); auto with effects. }
  unfold Bot.cmd_pay, Bot.reply.
  destruct (_ <? _)%nat; [split; auto with effects|].
  split.
  - apply keeps_try_except; [|auto with effects].
    apply keeps_bind; [apply Hget|]. intros inv.
    apply keeps_bind; [apply Hqr|]. intros png.
    auto 10 with effects.
  - apply extends_try_except; [|auto with effects].
    apply extends_bind; [apply Hget|]. intros inv.
    apply extends_bind; [apply Hqr|]. intros png.
    auto 10 with effects.
Qed.

(** X12. [bot.py] does not look at the credentials before it calls the gateway:
    with none configured the request still goes out, to the store [None] and
    with the token [None]. *)
Theorem bot_get_invoice_unguarded (g : Bot.state) (tr : list Bot.call)
    (invoice_id : string) :
  Bot.BTCPAY_API_KEY g = None ->
  Bot.BTCPAY_STORE_ID g = None ->
  let url := (Bot.BTCPAY_URL g +:+ "/api/v1/stores/None") +:+ "/invoices/" +:+ invoice_id in
  Bot.get_invoice W invoice_id (g, tr) =
    (Bot.requests_get W tr url,
     (g, (tr ++ [Bot.HttpGet url [("Authorization", "token None");
                                  ("Content-Type", "application/json")]])%list)).
Proof.
  intros Hk Hs url. rewrite bot_get_invoice_run. subst url. rewrite Hk, Hs.
  reflexivity.
Qed.

(** X13. A payment command whose invoice cannot be fetched, or has no payment
    method, is answered with one reply carrying the error text; no photo is
    sent, nothing waits and nothing is deleted. *)
Theorem cmd_pay_reports_the_error (message : Bot.Message) (g : Bot.state)
    (tr : list Bot.call) :
  let parts := str_split (Bot.text message) in
  let invoice_id := nth 1 parts "" in
  let url := (Bot.BTCPAY_URL g +:+ "/api/v1/stores/" +:+ opt_str (Bot.BTCPAY_STORE_ID g))
             +:+ "/invoices/" +:+ invoice_id in
  let get := Bot.HttpGet url
               [("Authorization", "token " +:+ opt_str (Bot.BTCPAY_API_KEY g));
                ("Content-Type", "application/json")] in
  let told (calls : list Bot.call) (text : string) :=
    (Bot.send_reply W (tr ++ calls)%list (Bot.message_id message) text,
     (g, (tr ++ calls ++ [Bot.Reply (Bot.message_id message) text])%list)) in
  (2 <= length parts)%nat ->
  (forall e, Bot.requests_get W tr url = Raise e ->
     Bot.cmd_pay W message (g, tr) = told [get] ("❌ Error: " +:+ exn_str e)) /\
  (forall inv inv2,
     Bot.requests_get W tr url = Ok inv ->
     Bot.requests_get W (tr ++ [get])%list url = Ok inv2 ->
     paymentMethods inv2 = [] ->
     Bot.cmd_pay W message (g, tr)
       = told [get; get] "❌ Error: No payment methods in invoice").
Proof.
  intros parts invoice_id url get told Hlen. apply Nat.ltb_ge in Hlen.
  unfold Bot.cmd_pay. fold parts. rewrite Hlen. fold invoice_id.
  unfold try_except, bind, Bot.generate_payment_qr, bind.
  rewrite !bot_get_invoice_run. fold url get. split.
  - intros e He. rewrite He. unfold told, Bot.reply, perform. cbn [fst snd].
    now rewrite <- app_assoc.
  - intros inv inv2 H1 H2 Hempty. rewrite H1, H2, Hempty.
    unfold told, raise, Bot.reply, perform. cbn [fst snd].
    now rewrite <- !app_assoc.
Qed.

End RegistryFrame.

(** ** The payment command of [bot_groups.py] *)

Section GroupsPay.
Context `{Builtins} (W : BotGroups.world).

(** X14. The [/pay] of [bot_groups.py] never asks for the Lightning method: the
    URI it shows is the one of the first method of the invoice, whatever the
    other methods are.  The QR code goes through the file
    [/tmp/<invoice id>.png] before it is sent. *)
Theorem groups_cmd_pay_uses_first_method (message : BotGroups.Message)
    (cfg : BotGroups.config) (tr : list BotGroups.call) (inv : invoice)
    (first : dict) (rest : list dict) (uri png : string) s1 :
  let args := str_split (str_strip (BotGroups.text message)) in
  let invoice_id := nth 1 args "" in
  let tmp_file := "/tmp/" +:+ invoice_id +:+ ".png" in
  let caption := "💳 Payment QR for invoice `" +:+ invoice_id +:+ "`" +:+ nl +:+ nl
                 +:+ "👉 URI: `" +:+ uri +:+ "`" in
  (2 <= length args)%nat ->
  BotGroups.get_invoice W invoice_id (cfg, tr) = (Ok inv, s1) ->
  paymentMethods inv = first :: rest ->
  BotGroups.payment_uri first = Ok uri ->
  qrcode_png uri = Ok png ->
  BotGroups.write_file W (snd s1) tmp_file = Ok tt ->
  let written := (snd s1 ++ [BotGroups.WriteFile tmp_file png])%list in
  BotGroups.send_reply_photo W written (BotGroups.message_id message) caption = Ok tt ->
  BotGroups.cmd_pay W message (cfg, tr) =
    (Ok tt,
     (fst s1,
      (written ++ [BotGroups.ReplyPhoto (BotGroups.message_id message) tmp_file caption])
      %list)).
Proof.
  intros args invoice_id tmp_file caption Hlen Hget Hm Huri Hqr Hwrite written Hsend.
  apply Nat.ltb_ge in Hlen.
  unfold BotGroups.cmd_pay. fold args. rewrite Hlen. fold invoice_id.
  unfold try_except. unfold bind at 1.
  rewrite (generate_payment_qr_fetched W invoice_id false inv first rest _ _ Hget Hm).
  unfold BotGroups.select_method. cbn [rbind BotGroups.first_method].
  rewrite Huri. cbn [rbind]. rewrite Hqr. cbn [rbind].
  destruct s1 as [g1 tr1]. unfold bind, perform. cbn [fst snd] in *.
  fold tmp_file. rewrite Hwrite. fold written. fold caption. rewrite Hsend.
  reflexivity.
Qed.


End GroupsPay.


(** ** The Lightning test *)

Section LightningMarker.

Lemma prefix_iff (a b : string) :
  String.prefix a b = true <-> exists c, b = a +:+ c.
Proof.
  revert b. induction a as [|x a IH]; intros b.
  - split; [intros _; now exists b | intros _; now destruct b].
  - destruct b as [|y b]; simpl.
    + split; [discriminate | intros [c E]; discriminate E].
    + destruct (ascii_dec x y) as [->|Hne].
      * rewrite IH. split; intros [c E]; exists c.
        -- change (String y b = String y (a +:+ c)). now rewrite E.
        -- change (String y b = String y (a +:+ c)) in E. now injection E.
      * split; [discriminate|]. intros [c E].
        change (String y b = String x (a +:+ c)) in E. injection E as E _.
        congruence.
Qed.

Lemma append_assoc (a b c : string) : (a +:+ b) +:+ c = a +:+ b +:+ c.
Proof.
  induction a as [|x a IH]; [reflexivity|].
  change (String x ((a +:+ b) +:+ c) = String x (a +:+ b +:+ c)). now rewrite IH.
Qed.

(** [str_contains] is the substring test. *)
Lemma str_contains_iff (needle hay : string) :
  str_contains needle hay = true <->
  exists pre post, hay = pre +:+ needle +:+ post.
Proof.
  induction hay as [|y hay IH]; cbn [str_contains]; rewrite orb_true_iff, prefix_iff.
  - split.
    + intros [[c E]|]; [|discriminate]. now exists "", c.
    + intros (pre & post & E). left. destruct pre; [now exists post | discriminate E].
  - rewrite IH. split.
    + intros [[c E]|(pre & post & E)]; [now exists "", c|].
      exists (String y pre), post.
      change (String y hay = String y (pre +:+ needle +:+ post)). now rewrite E.
    + intros (pre & post & E). destruct pre as [|x pre].
      * left. now exists post.
      * right. exists pre, post.
        change (String y hay = String x (pre +:+ needle +:+ post)) in E.
        now injection E.
Qed.

Lemma py_in_list_iff (needle : string) (l : list json) :
  existsb (fun x => match x with
                    | PStr s => String.eqb s needle
                    | _ => false
                    end) l = true
  <-> In (PStr needle) l.
Proof.
  rewrite existsb_exists. split.
  - intros (x & Hin & Hx). destruct x as [| | |s| |]; try discriminate.
    apply String.eqb_eq in Hx. now subst.
  - intros Hin. exists (PStr needle). split; [exact Hin | apply String.eqb_refl].
Qed.

Lemma py_in_dict_iff (needle : string) (d : dict) :
  existsb (fun kv => String.eqb (fst kv) needle) d = true
  <-> exists v, In (needle, v) d.
Proof.
  rewrite existsb_exists. split.
  - intros ([k v] & Hin & Hk). apply String.eqb_eq in Hk. simpl in Hk. subst.
    now exists v.
  - intros [v Hin]. exists (needle, v). split; [exact Hin | apply String.eqb_refl].
Qed.

(** X16. The Lightning test on a method, by what its label is: a text passes
    exactly when it has "Lightning" somewhere in it, in this spelling; a list
    passes exactly when the text "Lightning" is one of its elements; an
    object passes exactly when "Lightning" is one of its keys; a method
    without a label does not pass; and a label that is [null], a boolean or
    a number makes the test raise [TypeError]. *)
Theorem is_lightning_iff_marker (m : dict) :
  (forall label, dict_lookup m "paymentMethod" = Some (PStr label) ->
     exists b, BotGroups.is_lightning m = Ok b /\
               (b = true <-> exists pre post, label = pre +:+ "Lightning" +:+ post)) /\
  (forall l, dict_lookup m "paymentMethod" = Some (PList l) ->
     exists b, BotGroups.is_lightning m = Ok b /\
               (b = true <-> In (PStr "Lightning") l)) /\
  (forall d, dict_lookup m "paymentMethod" = Some (PDict d) ->
     exists b, BotGroups.is_lightning m = Ok b /\
               (b = true <-> exists v, In ("Lightning", v) d)) /\
  (dict_lookup m "paymentMethod" = None -> BotGroups.is_lightning m = Ok false) /\
  (forall v, dict_lookup m "paymentMethod" = Some v ->
     v = PNone \/ (exists b, v = PBool b) \/ (exists z, v = PInt z) ->
     exists msg, BotGroups.is_lightning m = Raise (TypeError msg)).
Proof.
  unfold BotGroups.is_lightning, dict_get_or. split; [|split; [|split; [|split]]].
  - intros label ->. simpl. eexists. split; [reflexivity|]. apply str_contains_iff.
  - intros l ->. cbn [default py_in]. eexists. split; [reflexivity|].
    apply py_in_list_iff.
  - intros d ->. cbn [default py_in]. eexists. split; [reflexivity|].
    apply py_in_dict_iff.
  - intros ->. reflexivity.
  - intros v -> [->|[[b ->]|[z ->]]]; simpl; eauto.
Qed.

End LightningMarker.


(** ** [app_tdlib.py]: import, start-up and the [/create] handler *)

Section TdlibImport.
Import AppTdlibMain.
Context (py_int : string -> result Z) (environ : gmap string string).

(** X17. The import goes through exactly when the API id is set to a text that
    [int] reads as a number other than 0, and the API hash, the bot token
    and the session string are set and not empty.  What it leaves behind is
    the base name of the environment, [Escrow] when there is none, and an
    empty user-name cache.  With the API hash or the bot token missing the
    import stops at the check of those, also when the session string is
    missing too, unless [int] has already raised on the API id. *)
Theorem tdlib_import_needs_every_setting :
  let set name := getenv environ name "" <> "" in
  ((exists st, import_module py_int environ = Ok st) <->
   (exists raw id, environ !! "TG_API_ID" = Some raw /\ raw <> "" /\ raw <> "0" /\
                   py_int raw = Ok id /\ id <> 0) /\
   set "TG_API_HASH" /\ set "BOT_TOKEN" /\ set "USER_SESSION_STRING") /\
  (forall st, import_module py_int environ = Ok st ->
     initial_state st =
       {| AppTdlib.GROUP_BASE_NAME := getenv environ "GROUP_BASE_NAME" "Escrow";
          AppTdlib.BOT_USERNAME_CACHE := None |}) /\
  (getenv environ "TG_API_HASH" "" = "" \/ getenv environ "BOT_TOKEN" "" = "" ->
   import_module py_int environ =
     Raise (RuntimeError "Missing TG_API_ID / TG_API_HASH / BOT_TOKEN in .env") \/
   exists e, py_int (getenv environ "TG_API_ID" "0") = Raise e /\
             import_module py_int environ = Raise e).
Proof.
  cbn zeta. unfold import_module.
  set (raw := getenv environ "TG_API_ID" "0").
  set (hash := getenv environ "TG_API_HASH" "").
  set (token := getenv environ "BOT_TOKEN" "").
  set (session := getenv environ "USER_SESSION_STRING" "").
  assert (forall id, (String.eqb raw "" || String.eqb raw "0" = false /\ py_int raw = Ok id)
                     <-> (exists r, environ !! "TG_API_ID" = Some r /\ r <> "" /\ r <> "0"
                                    /\ py_int r = Ok id /\ raw = r)) as Hraw.
  { intros id. subst raw. unfold getenv.
    destruct (environ !! "TG_API_ID") as [r|]; simpl.
    - rewrite orb_false_iff, !String.eqb_neq. split.
      + intros [[A B] C]. exists r. auto.
      + intros (r' & [= <-] & A & B & C & _). auto.
    - split; [intros [[=] _] | intros (r' & [=] & _)]. }
  split; [split|split].
  - intros [st Hst].
    destruct (String.eqb raw "" || String.eqb raw "0") eqn:Hz; simpl in Hst;
      [discriminate Hst|].
    destruct (py_int raw) as [id|e] eqn:Hid; simpl in Hst; [|discriminate Hst].
    destruct (negb (id =? 0)) eqn:Hnz; simpl in Hst; [|discriminate Hst].
    destruct (String.eqb hash "") eqn:Hh; simpl in Hst; [discriminate Hst|].
    destruct (String.eqb token "") eqn:Ht; simpl in Hst; [discriminate Hst|].
    destruct (String.eqb session "") eqn:Hs; simpl in Hst; [discriminate Hst|].
    apply String.eqb_neq in Hh, Ht, Hs.
    apply negb_true_iff, Z.eqb_neq in Hnz.
    destruct (proj1 (Hraw id) (conj eq_refl eq_refl)) as (r & A & B & C & D & _).
    repeat split; eauto 10.
  - intros ((r & id & A & B & C & D & E) & Hh & Ht & Hs).
    assert (String.eqb raw "" || String.eqb raw "0" = false /\ py_int raw = Ok id)
      as [Hz Hid].
    { apply Hraw. exists r. repeat split; auto. subst raw. unfold getenv.
      now rewrite A. }
    rewrite Hz, Hid. simpl.
    apply Z.eqb_neq in E. apply String.eqb_neq in Hh, Ht, Hs.
    fold hash token session in Hh, Ht, Hs.
    rewrite E, Hh, Ht, Hs. simpl. eauto.
  - intros st Hst.
    destruct (String.eqb raw "" || String.eqb raw "0"); simpl in Hst;
      [discriminate Hst|].
    destruct (py_int raw) as [id|e]; simpl in Hst; [|discriminate Hst].
    destruct (negb (negb (id =? 0) && negb (String.eqb hash "")
                    && negb (String.eqb token ""))); [discriminate Hst|].
    destruct (String.eqb session ""); [discriminate Hst|].
    injection Hst as <-. reflexivity.
  - intros Hmiss.
    assert (String.eqb hash "" = true \/ String.eqb token "" = true) as Hb.
    { destruct Hmiss as [E|E]; [left|right]; now apply String.eqb_eq. }
    assert (forall z, negb (negb (z =? 0) && negb (String.eqb hash "")
                            && negb (String.eqb token "")) = true) as Hcheck.
    { intros z. destruct Hb as [-> | ->]; now rewrite ?andb_false_r. }
    destruct (String.eqb raw "" || String.eqb raw "0"); cbn [rbind].
    + left. now rewrite Hcheck.
    + destruct (py_int raw) as [id|e]; cbn [rbind]; [|right; eauto].
      left. now rewrite Hcheck.
Qed.

End TdlibImport.


Section TdlibProgram.
Import AppTdlibMain.
Context (W : world).

Lemma provision_calls_app (tr tr' : list call) :
  provision_calls (tr ++ tr') = (provision_calls tr ++ provision_calls tr')%list.
Proof. unfold provision_calls. apply flat_map_app. Qed.

Lemma provision_calls_map (new : list AppTdlib.call) :
  provision_calls (map Provision new) = new.
Proof. induction new as [|c new IH]; simpl; [reflexivity | now rewrite IH]. Qed.

(** [within] hands the inner run through: same outcome, same globals, the
    new calls logged as provisioning calls. *)
Lemma within_run {A} (m : @M AppTdlib.state AppTdlib.call A) (g g' : AppTdlib.state)
    (tr : list call) (r : result A) (new : list AppTdlib.call) :
  m (g, provision_calls tr) = (r, (g', (provision_calls tr ++ new)%list)) ->
  within m (g, tr) = (r, (g', (tr ++ map Provision new)%list)).
Proof.
  intros E. unfold within. cbn [fst snd]. rewrite E.
  now rewrite drop_app_length.
Qed.

Lemma generate_suffix_extends (V : AppTdlib.world) (n : nat) :
  extends (AppTdlib.generate_suffix V n).
Proof.
  induction n as [|n IH]; simpl; [auto with effects|].
  unfold AppTdlib.random_choice. auto 10 with effects.
Qed.

(** Provisioning only adds calls, whatever the platform answers. *)
Lemma create_new_group_extends (V : AppTdlib.world) :
  extends (AppTdlib.create_new_group V).
Proof.
  pose proof (generate_suffix_extends V 5) as Hs.
  unfold AppTdlib.create_new_group.
  apply extends_bind; [auto with effects|]. intros g.
  apply extends_bind.
  { destruct (AppTdlib.not_str _); auto 10 with effects. }
  intros _. apply extends_bind; [exact Hs|]. intros code.
  auto 20 with effects.
Qed.

End TdlibProgram.


Section TdlibHandlers.
Import AppTdlibMain.
Context (W : world).

(** X18. When [/create] cannot provision the group, the requester gets the
    "please wait" reply and then one reply with the error of the failing
    step; no message is sent into any group.  When already the first reply
    raises, nothing is provisioned at all. *)
Theorem handle_create_failure (message : Message) (g : AppTdlib.state)
    (tr : list call) :
  let wait := Reply (message_id message) "Creating Escrow Group. Please Wait..." false in
  (forall e,
      send_reply W tr (message_id message) "Creating Escrow Group. Please Wait..."
        = Raise e ->
      handle_create W message (g, tr) = (Raise e, (g, (tr ++ [wait])%list))) /\
  (forall e g1 new,
      send_reply W tr (message_id message) "Creating Escrow Group. Please Wait..."
        = Ok tt ->
      AppTdlib.create_new_group (provisioning W) (g, provision_calls tr)
        = (Raise e, (g1, (provision_calls tr ++ new)%list)) ->
      let text := "❌ Error creating group: " +:+ exn_str e in
      let done := (tr ++ [wait] ++ map Provision new)%list in
      handle_create W message (g, tr) =
        (send_reply W done (message_id message) text,
         (g1, (done ++ [Reply (message_id message) text false])%list))).
Proof.
  cbn zeta. split.
  - intros e He. unfold handle_create, reply, bind, perform. cbn [fst snd].
    now rewrite He.
  - intros e g1 new Hwait Hrun.
    unfold handle_create, reply, bind at 1, perform at 1. cbn [fst snd].
    rewrite Hwait. unfold try_except, bind at 1.
    rewrite (within_run _ g g1 _ (Raise e) new).
    + unfold perform. cbn [fst snd]. now rewrite <- !app_assoc.
    + rewrite provision_calls_app. cbn. now rewrite app_nil_r.
Qed.

(** X19. When provisioning succeeds, [/create] replies with the title and the
    link and then posts the welcome and the notice into the new group, in
    this order.  A failure while posting (the bot may not be in the group)
    is reported to the requester as a failed creation, after the success
    reply, and the notice is not posted. *)
Theorem handle_create_success (message : Message) (g g1 : AppTdlib.state)
    (tr : list call) (new : list AppTdlib.call) (link title : string) (chat : Z) :
  let wait := Reply (message_id message) "Creating Escrow Group. Please Wait..." false in
  let created := Reply (message_id message) (created_text title link) true in
  let welcome := SendMessage chat (welcome_text title) in
  let done := (tr ++ [wait] ++ map Provision new)%list in
  send_reply W tr (message_id message) "Creating Escrow Group. Please Wait..." = Ok tt ->
  AppTdlib.create_new_group (provisioning W) (g, provision_calls tr)
    = (Ok (link, title, chat), (g1, (provision_calls tr ++ new)%list)) ->
  send_reply W done (message_id message) (created_text title link) = Ok tt ->
  (bot_send_message W (done ++ [created])%list chat (welcome_text title) = Ok tt ->
   bot_send_message W (done ++ [created; welcome])%list chat notice_text = Ok tt ->
   handle_create W message (g, tr) =
     (Ok tt, (g1, (done ++ [created; welcome; SendMessage chat notice_text])%list))) /\
  (forall e,
     bot_send_message W (done ++ [created])%list chat (welcome_text title) = Raise e ->
     let text := "❌ Error creating group: " +:+ exn_str e in
     handle_create W message (g, tr) =
       (send_reply W (done ++ [created; welcome])%list (message_id message) text,
        (g1, (done ++ [created; welcome; Reply (message_id message) text false])%list))).
Proof.
  intros wait created welcome done Hwait Hrun Hcreated.
  assert (within (AppTdlib.create_new_group (provisioning W)) (g, (tr ++ [wait])%list)
          = (Ok (link, title, chat), (g1, done))) as Hin.
  { unfold done. rewrite app_assoc. apply within_run.
    rewrite provision_calls_app. cbn. now rewrite app_nil_r. }
  split.
  - intros Hwelcome Hnotice.
    unfold handle_create, reply, send_message, bind at 1, perform at 1.
    cbn [fst snd]. rewrite Hwait. fold wait.
    unfold try_except, bind at 1. rewrite Hin.
    unfold bind, perform. cbn [fst snd]. fold created.
    rewrite Hcreated. fold welcome. rewrite Hwelcome.
    rewrite <- !app_assoc. cbn [app]. rewrite Hnotice. reflexivity.
  - intros e Hwelcome text.
    unfold handle_create, reply, send_message, bind at 1, perform at 1.
    cbn [fst snd]. rewrite Hwait. fold wait.
    unfold try_except, bind at 1. rewrite Hin.
    unfold bind, perform. cbn [fst snd]. fold created.
    rewrite Hcreated. fold welcome. rewrite Hwelcome.
    cbn [fst snd]. rewrite <- !app_assoc. reflexivity.
Qed.

(** X20. [main], once both clients have started: when the look-up of the
    bot's account succeeds, [main] has cached the user name and printed its
    line before it idles, it looks the name up this once only, and after
    idling it stops the bot and then the user session; from the caching on,
    as long as the cached name is not empty, [/create] never looks the name
    up again and does not change the globals.  When the look-up raises,
    [main] ends with that error: nothing is cached and it never idles. *)
Theorem main_caches_the_name_before_idling (g : AppTdlib.state) (tr : list call) :
  user_start W tr = Ok tt ->
  bot_start W (tr ++ [UserStart])%list = Ok tt ->
  (forall me,
     AppTdlib.bot_get_me (provisioning W) (provision_calls tr) = Ok me ->
     let g1 := {| AppTdlib.GROUP_BASE_NAME := AppTdlib.GROUP_BASE_NAME g;
                  AppTdlib.BOT_USERNAME_CACHE := me |} in
     let started := (tr ++ [UserStart; BotStart; Provision AppTdlib.GetMe;
                            Print "Bot is running..."])%list in
     start_up W (g, tr) = (Ok tt, (g1, started)) /\
     (fst (snd (main W (g, tr))) = g1 /\
      exists rest, snd (snd (main W (g, tr))) = (started ++ Idle :: rest)%list /\
                   ~ In (Provision AppTdlib.GetMe) rest) /\
     (idle W started = Ok tt ->
      bot_stop W (started ++ [Idle])%list = Ok tt ->
      main W (g, tr) =
        (user_stop W (started ++ [Idle; BotStop])%list,
         (g1, (started ++ [Idle; BotStop; UserStop])%list))) /\
     (AppTdlib.not_str me = false ->
      forall message tr',
        fst (snd (handle_create W message (g1, tr'))) = g1 /\
        exists new, snd (snd (handle_create W message (g1, tr'))) = (tr' ++ new)%list /\
                    ~ In (Provision AppTdlib.GetMe) new)) /\
  (forall e,
     AppTdlib.bot_get_me (provisioning W) (provision_calls tr) = Raise e ->
     main W (g, tr) =
       (Raise e, (g, (tr ++ [UserStart; BotStart; Provision AppTdlib.GetMe])%list))).
Proof.
  intros Hu Hb.
  assert (AppTdlib.bot_get_me (provisioning W)
            (provision_calls ((tr ++ [UserStart]) ++ [BotStart]))
          = AppTdlib.bot_get_me (provisioning W) (provision_calls tr)) as Hcalls.
  { rewrite !provision_calls_app.
    change (provision_calls [UserStart]) with (@nil AppTdlib.call).
    change (provision_calls [BotStart]) with (@nil AppTdlib.call).
    now rewrite !app_nil_r. }
  split.
  2:{ intros e Hme. unfold main, bind at 1.
      unfold start_up, bind, perform, globals, set_globals. cbn [fst snd].
      rewrite Hu, Hb, Hcalls, Hme. cbn [fst snd]. now rewrite <- !app_assoc. }
  intros me Hme g1 started.
  assert (start_up W (g, tr) = (Ok tt, (g1, started))) as Hstart.
  { unfold start_up, bind, perform, globals, set_globals. cbn [fst snd].
    rewrite Hu, Hb, Hcalls, Hme. cbn [fst snd]. unfold started.
    now rewrite <- !app_assoc. }
  assert (main W (g, tr) =
            (perform Idle (idle W) ;;; perform BotStop (bot_stop W) ;;;
             perform UserStop (user_stop W)) (g1, started)) as Hmain.
  { unfold main, bind at 1. now rewrite Hstart. }
  split; [exact Hstart|]. split; [|split].
  - rewrite Hmain. unfold bind, perform. cbn [fst snd].
    destruct (idle W started) as [[]|e1]; cbn [fst snd].
    2:{ split; [reflexivity|]. exists []. split; [reflexivity|]. intros []. }
    destruct (bot_stop W (started ++ [Idle])) as [[]|e2]; cbn [fst snd].
    2:{ split; [reflexivity|]. exists [BotStop].
        split; [now rewrite <- app_assoc|]. intros [[=]|[]]. }
    split; [reflexivity|]. exists [BotStop; UserStop].
    split; [now rewrite <- !app_assoc|]. intros [[=]|[[=]|[]]].
  - intros Hidle Hstop. rewrite Hmain.
    unfold bind, perform. cbn [fst snd]. rewrite Hidle. cbn [fst snd].
    rewrite Hstop. cbn [fst snd]. now rewrite <- !app_assoc.
  - intros Hname message tr'.
    set (wait := Reply (message_id message) "Creating Escrow Group. Please Wait..." false).
    destruct (create_new_group_cached_run (provisioning W) g1
                (provision_calls (tr' ++ [wait])) Hname) as (r & new & Hrun & Hno).
    pose proof (within_run _ g1 g1 (tr' ++ [wait])%list r new Hrun) as Hin.
    assert (forall l, In (Provision AppTdlib.GetMe) (map Provision new ++ l)%list ->
                      In (Provision AppTdlib.GetMe) l) as Hnew.
    { intros l [Hi|Hi]%in_app_or; [|exact Hi].
      apply in_map_iff in Hi as (c & [= ->] & Hc). contradiction. }
    destruct (handle_create W message (g1, tr')) as [res [gf trf]] eqn:E.
    cbn [fst snd].
    unfold handle_create, reply, send_message, bind at 1, perform at 1 in E.
    cbn [fst snd] in E. fold wait in E.
    destruct (send_reply W tr' (message_id message) _) as [[]|e0].
    2:{ injection E as _ <- <-. split; [reflexivity|]. exists [wait].
        split; [reflexivity|]. intros [[=]|[]]. }
    unfold try_except, bind at 1 in E. rewrite Hin in E.
    destruct r as [[[link title] chat]|e]; unfold bind, perform in E;
      cbn [fst snd] in E.
    + repeat match type of E with
             | context [match ?x with Ok _ => _ | Raise _ => _ end] =>
                 destruct x as [[]|?]; cbn [fst snd] in E
             end;
        injection E as _ <- <-;
        (split; [reflexivity|]); rewrite <- ?app_assoc; eexists;
        (split; [reflexivity|]);
        intros [[=]|Hi]; apply Hnew in Hi; cbn in Hi; intuition discriminate.
    + injection E as _ <- <-. split; [reflexivity|]. rewrite <- !app_assoc. eexists.
      split; [reflexivity|].
      intros [[=]|Hi]. apply Hnew in Hi. cbn in Hi. intuition discriminate.
Qed.

End TdlibHandlers.


(** ** The invite link of the shared group ([bot.py], [bot_groups.py]) *)

Section InviteLinks.

Lemma nth_mod_in (i : nat) (seq : list Z) :
  seq <> [] -> In (nth (i mod length seq)%nat seq 0) seq.
Proof.
  intros Hne. apply nth_In. apply Nat.mod_upper_bound.
  destruct seq; [contradiction | discriminate].
Qed.

(** X21. [bot.py]: without topic ids the invite fails with [ValueError] before any
    call is made, and [/create] then raises without answering.  Otherwise one
    topic of the list is drawn and one invite link is created, always for the
    configured group, named after the drawn topic and without join requests;
    [/create] answers with the link it got. *)
Theorem bot_cmd_create_outcomes (W : BotCreate.world) (message : BotCreate.Message)
    (g : BotCreate.state) (tr : list BotCreate.call) :
  (BotCreate.TOPIC_IDS g = [] ->
   BotCreate.generate_group_invite W (g, tr)
     = (Raise (ValueError "No topic IDs in .env"), (g, tr)) /\
   BotCreate.cmd_create W message (g, tr)
     = (Raise (ValueError "No topic IDs in .env"), (g, tr))) /\
  (BotCreate.TOPIC_IDS g <> [] ->
   exists topic_id,
     In topic_id (BotCreate.TOPIC_IDS g) /\
     let name := "Escrow Topic " +:+ pretty topic_id in
     let asked :=
       (tr ++ [BotCreate.RandomChoice (BotCreate.TOPIC_IDS g);
               BotCreate.CreateChatInviteLink (BotCreate.GROUP_CHAT_ID g) name false])
       %list in
     BotCreate.generate_group_invite W (g, tr)
       = (BotCreate.bot_create_chat_invite_link W
            (tr ++ [BotCreate.RandomChoice (BotCreate.TOPIC_IDS g)])%list
            (BotCreate.GROUP_CHAT_ID g) name,
          (g, asked)) /\
     forall link,
       BotCreate.bot_create_chat_invite_link W
         (tr ++ [BotCreate.RandomChoice (BotCreate.TOPIC_IDS g)])%list
         (BotCreate.GROUP_CHAT_ID g) name = Ok link ->
       let text := "⚡ Here is your private escrow group link:" +:+ nl +:+ link in
       BotCreate.cmd_create W message (g, tr)
         = (BotCreate.send_answer W asked (BotCreate.chat_id message) text,
            (g, (asked ++ [BotCreate.Answer (BotCreate.chat_id message) text])%list))).
Proof.
  split.
  - intros Hempty.
    unfold BotCreate.cmd_create, BotCreate.generate_group_invite, bind, globals, raise.
    cbn [fst snd]. rewrite Hempty. split; reflexivity.
  - intros Hne.
    exists (nth (BotCreate.random_index W tr mod length (BotCreate.TOPIC_IDS g))%nat
                (BotCreate.TOPIC_IDS g) 0).
    split; [now apply nth_mod_in|]. cbn zeta.
    assert (forall A (a b : A), match BotCreate.TOPIC_IDS g with [] => a | _ :: _ => b end = b)
      as Hmatch by (intros; destruct (BotCreate.TOPIC_IDS g); [contradiction | reflexivity]).
    split.
    + unfold BotCreate.generate_group_invite, bind, globals. cbn [fst snd].
      rewrite Hmatch. unfold BotCreate.random_choice, perform. cbn [fst snd].
      now rewrite <- app_assoc.
    + intros link Hlink.
      unfold BotCreate.cmd_create, BotCreate.generate_group_invite, bind at 1.
      unfold bind at 1, globals. cbn [fst snd].
      rewrite Hmatch. unfold BotCreate.random_choice, bind, perform. cbn [fst snd].
      rewrite Hlink. unfold BotCreate.answer, perform. cbn [fst snd].
      now rewrite <- !app_assoc.
Qed.

(** X22. [bot_groups.py]: without topic ids [/create] answers with the
    configuration error and creates no link.  Otherwise the link is created
    for the configured group under the name of a drawn topic of the list, and
    the reply names that topic and carries the link; when the link cannot be
    created the handler raises and sends no reply. *)
Theorem groups_cmd_create_outcomes (W : BotGroupsCreate.world)
    (message : BotGroupsCreate.Message) (g : BotGroupsCreate.state)
    (tr : list BotGroupsCreate.call) :
  let mid := BotGroupsCreate.message_id message in
  (BotGroupsCreate.TOPIC_IDS g = [] ->
   BotGroupsCreate.cmd_create W message (g, tr)
     = (BotGroupsCreate.send_reply W tr mid "❌ No topic IDs configured in .env",
        (g, (tr ++ [BotGroupsCreate.Reply mid "❌ No topic IDs configured in .env"])%list))) /\
  (BotGroupsCreate.TOPIC_IDS g <> [] ->
   exists topic_id,
     In topic_id (BotGroupsCreate.TOPIC_IDS g) /\
     let name := "Escrow Topic " +:+ pretty topic_id in
     let drawn := (tr ++ [BotGroupsCreate.RandomChoice (BotGroupsCreate.TOPIC_IDS g)])%list in
     let asked :=
       (drawn ++ [BotGroupsCreate.CreateChatInviteLink
                    (BotGroupsCreate.GROUP_CHAT_ID g) name false])%list in
     (forall link,
        BotGroupsCreate.bot_create_chat_invite_link W drawn
          (BotGroupsCreate.GROUP_CHAT_ID g) name = Ok link ->
        let text := "✅ Invite link created for topic " +:+ pretty topic_id +:+ ":"
                    +:+ nl +:+ link in
        BotGroupsCreate.cmd_create W message (g, tr)
          = (BotGroupsCreate.send_reply W asked mid text,
             (g, (asked ++ [BotGroupsCreate.Reply mid text])%list))) /\
     (forall e,
        BotGroupsCreate.bot_create_chat_invite_link W drawn
          (BotGroupsCreate.GROUP_CHAT_ID g) name = Raise e ->
        BotGroupsCreate.cmd_create W message (g, tr) = (Raise e, (g, asked)))).
Proof.
  cbn zeta. split.
  - intros Hempty. unfold BotGroupsCreate.cmd_create, bind, globals.
    cbn [fst snd]. now rewrite Hempty.
  - intros Hne.
    exists (nth (BotGroupsCreate.random_index W tr
                   mod length (BotGroupsCreate.TOPIC_IDS g))%nat
                (BotGroupsCreate.TOPIC_IDS g) 0).
    split; [now apply nth_mod_in|].
    assert (forall A (a b : A),
               match BotGroupsCreate.TOPIC_IDS g with [] => a | _ :: _ => b end = b)
      as Hmatch
      by (intros; destruct (BotGroupsCreate.TOPIC_IDS g); [contradiction | reflexivity]).
    split.
    + intros link Hlink.
      unfold BotGroupsCreate.cmd_create, bind at 1, globals. cbn [fst snd].
      rewrite Hmatch. unfold BotGroupsCreate.random_choice, bind, perform.
      cbn [fst snd]. rewrite Hlink.
      unfold BotGroupsCreate.reply, perform. cbn [fst snd]. reflexivity.
    + intros e He.
      unfold BotGroupsCreate.cmd_create, bind at 1, globals. cbn [fst snd].
      rewrite Hmatch. unfold BotGroupsCreate.random_choice, bind, perform.
      cbn [fst snd]. rewrite He. reflexivity.
Qed.

End InviteLinks.


(** ** The selected method and the returned pair ([bot_groups.py]) *)

Section ResolverInvariants.
Import BotGroups.

Lemma first_method_in (methods : list dict) (m : dict) :
  first_method methods = Ok m -> In m methods.
Proof. destruct methods; simpl; [discriminate | intros [= <-]; now left]. Qed.

Lemma select_method_in (prefer_lightning : bool) (methods : list dict) (m : dict) :
  select_method prefer_lightning methods = Ok m -> In m methods.
Proof.
  unfold select_method. destruct prefer_lightning; cbn [rbind].
  - destruct (first_lightning methods) as [[c|]|e] eqn:Hf; cbn [rbind];
      [| apply first_method_in | discriminate].
    destruct (negb (truthy (PDict c))); [apply first_method_in|].
    intros [= <-]. now apply (first_lightning_some methods c).
  - apply first_method_in.
Qed.

Lemma first_lightning_raise (methods : list dict) (e : exn) :
  first_lightning methods = Raise e ->
  exists m, In m methods /\ is_lightning m = Raise e.
Proof.
  induction methods as [|x l IH]; simpl; [discriminate|].
  destruct (is_lightning x) as [[|]|e'] eqn:Hx; simpl.
  - discriminate.
  - intros Hl. destruct (IH Hl) as (m & Hin & Hm). eauto.
  - intros [= <-]. eauto.
Qed.

(** X23. The method that is selected is one of the offered methods; selection
    fails only on an empty list or, with the Lightning preference, on a label
    whose Lightning test raises. *)
Theorem select_method_picks_an_offered_method (prefer_lightning : bool)
    (methods : list dict) :
  (forall m, select_method prefer_lightning methods = Ok m -> In m methods) /\
  (forall e, select_method prefer_lightning methods = Raise e ->
     methods = [] \/
     prefer_lightning = true /\ exists m, In m methods /\ is_lightning m = Raise e).
Proof.
  split; [intros m; apply select_method_in|].
  assert (forall e, first_method methods = Raise e -> methods = []) as Hfirst
    by (intros e; destruct methods; [reflexivity | discriminate]).
  intros e. unfold select_method. destruct prefer_lightning; cbn [rbind].
  - destruct (first_lightning methods) as [[c|]|e'] eqn:Hf; cbn [rbind].
    + destruct (negb (truthy (PDict c))); [|discriminate].
      intros Hr. left. exact (Hfirst e Hr).
    + intros Hr. left. exact (Hfirst e Hr).
    + intros [= <-]. right. split; [reflexivity|]. now apply first_lightning_raise.
  - intros Hr. left. exact (Hfirst e Hr).
Qed.

(** X24. What [generate_payment_qr] returns belongs together: the image is the QR
    code of the returned URI, and the URI is the one of a method offered by
    the invoice that was fetched in this call. *)
Theorem generate_payment_qr_returns_a_matching_pair `{Builtins} (W : world)
    (invoice_id : string) (prefer_lightning : bool) (buf uri : string) s s' :
  generate_payment_qr W invoice_id prefer_lightning s = (Ok (buf, uri), s') ->
  exists inv chosen,
    get_invoice W invoice_id s = (Ok inv, s') /\
    In chosen (paymentMethods inv) /\
    select_method prefer_lightning (paymentMethods inv) = Ok chosen /\
    payment_uri chosen = Ok uri /\
    qrcode_png uri = Ok buf.
Proof.
  unfold generate_payment_qr, bind, lift, ret, raise.
  destruct (get_invoice W invoice_id s) as [[inv|e] s1]; [|discriminate].
  destruct (paymentMethods inv) as [|first rest] eqn:Hm; [discriminate|].
  destruct (select_method prefer_lightning (first :: rest)) as [chosen|e] eqn:Hsel;
    [|discriminate].
  destruct (payment_uri chosen) as [u|e] eqn:Hu; [|discriminate].
  destruct (qrcode_png u) as [b|e] eqn:Hq; [|discriminate].
  intros [= <- <- <-]. exists inv, chosen. rewrite Hm.
  repeat split; auto. exact (select_method_in _ _ _ Hsel).
Qed.

End ResolverInvariants.

(** * The theorems at work on concrete invoices, messages and outcomes *)

Section Instances.
Import Sample.
Existing Instance builtins.

Lemma generate_payment_qr_selects_lightning_or_first_witness :
  let W := groups_world (invoice_of [btc; ltc; ln]) in
  let fetched :=
    (groups_config,
     [BotGroups.HttpGet "https://btcpay.example/api/v1/stores/store/invoices/inv_1"
        [("Authorization", "token key"); ("Content-Type", "application/json")]]) in
  BotGroups.get_invoice W "inv_1" (groups_config, [])
    = (Ok (invoice_of [btc; ltc; ln]), fetched) /\
  BotGroups.generate_payment_qr W "inv_1" true (groups_config, [])
    = (Ok ("PNG:lightning:lnbc1example", "lightning:lnbc1example"), fetched) /\
  BotGroups.generate_payment_qr W "inv_1" false (groups_config, [])
    = (Ok ("PNG:bitcoin:bc1qexample?amount=0.01", "bitcoin:bc1qexample?amount=0.01"),
       fetched) /\
  BotGroups.generate_payment_qr (groups_world (invoice_of [btc; ltc])) "inv_1" true
      (groups_config, [])
    = (Ok ("PNG:bitcoin:bc1qexample?amount=0.01", "bitcoin:bc1qexample?amount=0.01"),
       fetched).
Proof.
  intros W fetched.
  assert (BotGroups.get_invoice W "inv_1" (groups_config, [])
          = (Ok (invoice_of [btc; ltc; ln]), fetched)) as Hget by reflexivity.
  assert (BotGroups.get_invoice (groups_world (invoice_of [btc; ltc])) "inv_1"
            (groups_config, [])
          = (Ok (invoice_of [btc; ltc]), fetched)) as Hget' by reflexivity.
  split; [exact Hget|]. split; [|split].
  - rewrite (proj2 (proj1 (generate_payment_qr_selects_lightning_or_first
                             W "inv_1" true (invoice_of [btc; ltc; ln]) btc [ltc; ln]
                             (groups_config, []) fetched Hget eq_refl)
                          [btc; ltc] ln [] eq_refl eq_refl
                          ltac:(repeat constructor) eq_refl)).
    reflexivity.
  - rewrite (proj2 (proj1 (proj2 (generate_payment_qr_selects_lightning_or_first
                                    W "inv_1" false (invoice_of [btc; ltc; ln]) btc [ltc; ln]
                                    (groups_config, []) fetched Hget eq_refl))
                          eq_refl)).
    reflexivity.
  - rewrite (proj2 (proj2 (proj2 (generate_payment_qr_selects_lightning_or_first
                                    (groups_world (invoice_of [btc; ltc])) "inv_1" true
                                    (invoice_of [btc; ltc]) btc [ltc]
                                    (groups_config, []) fetched Hget' eq_refl))
                          ltac:(repeat constructor))).
    reflexivity.
Defined.

Lemma select_method_lightning_or_first_witness :
  BotGroups.select_method true [btc; ltc; ln] = Ok ln /\
  BotGroups.select_method false [ln; btc] = Ok ln /\
  BotGroups.select_method true [btc; ltc] = Ok btc.
Proof.
  split; [|split].
  - apply (proj1 (select_method_lightning_or_first true btc [ltc; ln])
             [btc; ltc] ln []);
      [reflexivity | reflexivity | repeat constructor | reflexivity].
  - apply (proj1 (proj2 (select_method_lightning_or_first false ln [btc]))).
    reflexivity.
  - apply (proj2 (proj2 (select_method_lightning_or_first true btc [ltc]))).
    repeat constructor.
Defined.

(** The Lightning method of an invoice, resolved by [bot.py] and by
    [btcpay.py]: a [bitcoin:] URI that carries the amount. *)
Lemma bitcoin_uri_of_lightning_method :
  BotGroups.is_lightning ln = Ok true /\
  dict_get ln "amount" = PStr "0.01" /\
  Bot.bitcoin_uri ln = "bitcoin:lnbc1example?amount=0.01" /\
  fst (Bot.generate_payment_qr (bot_world (invoice_of [ln])) "inv_1" (bot_state, []))
    = Ok "PNG:bitcoin:lnbc1example?amount=0.01" /\
  fst (Btcpay.generate_payment_qr (btcpay_world (invoice_of [ln])) "inv_1"
         (btcpay_config, []))
    = Ok "PNG:bitcoin:lnbc1example?amount=0.01".
Proof. repeat split. Qed.

Lemma payment_uri_by_family_witness :
  truthy (dict_get btc "destination") = true /\
  BotGroups.payment_uri btc = Ok "bitcoin:bc1qexample?amount=0.01" /\
  BotGroups.payment_uri btc_no_amount = Ok "bitcoin:bc1qexample" /\
  BotGroups.payment_uri ln = Ok "lightning:lnbc1example" /\
  Bot.bitcoin_uri btc = "bitcoin:bc1qexample?amount=0.01".
Proof.
  split; [reflexivity|]. split; [|split; [|split]].
  - apply (proj1 (payment_uri_by_family btc eq_refl)); reflexivity.
  - apply (proj1 (proj2 (payment_uri_by_family btc_no_amount eq_refl))); reflexivity.
  - apply (proj1 (proj2 (proj2 (payment_uri_by_family ln eq_refl)))); reflexivity.
  - apply (proj1 (proj2 (proj2 (proj2 (payment_uri_by_family btc eq_refl))))).
Defined.

Lemma falsy_amount_is_omitted_witness :
  dict_lookup btc_empty_amount "amount" = Some (PStr "") /\
  truthy (PStr "") = false /\
  BotGroups.payment_uri btc_empty_amount = BotGroups.payment_uri btc_no_amount /\
  BotGroups.payment_uri btc_empty_amount = Ok "bitcoin:bc1qexample" /\
  Bot.bitcoin_uri btc_empty_amount = "bitcoin:bc1qexample".
Proof.
  pose proof (falsy_amount_is_omitted btc_empty_amount (PStr "") eq_refl eq_refl)
    as (A & _ & _ & D & E).
  split; [reflexivity|]. split; [reflexivity|].
  split; [exact A|]. split; [|exact D].
  apply (proj2 (E eq_refl)). reflexivity.
Defined.

Lemma no_payment_methods_witness :
  paymentMethods (invoice_of []) = [] /\
  BotGroups.generate_payment_qr (groups_world (invoice_of [])) "inv_1" true
      (groups_config, [])
    = (Raise (ValueError "No payment methods found in invoice."),
       snd (BotGroups.get_invoice (groups_world (invoice_of [])) "inv_1"
              (groups_config, []))) /\
  BotGroups.generate_payment_qr (groups_world (invoice_of [])) "inv_1" false
      (groups_config, [])
    = (Raise (ValueError "No payment methods found in invoice."),
       snd (BotGroups.get_invoice (groups_world (invoice_of [])) "inv_1"
              (groups_config, []))) /\
  fst (Bot.generate_payment_qr (bot_world (invoice_of [])) "inv_1" (bot_state, []))
    = Raise (ValueError "No payment methods in invoice").
Proof.
  pose proof (no_payment_methods "inv_1" (invoice_of []) eq_refl) as (G & B & _).
  split; [reflexivity|]. split; [|split].
  - apply G. reflexivity.
  - apply G. reflexivity.
  - rewrite (B (bot_world (invoice_of [])) (bot_state, []) _ eq_refl). reflexivity.
Defined.

(** With nothing in the environment the import of [btcpay.py] succeeds, and
    the missing credentials show as an error of the call, on each call. *)
Lemma credentials_checked_per_call :
  let W := btcpay_world (invoice_of [btc]) in
  let cfg := {| Btcpay.BTCPAY_URL := "https://mainnet.demo.btcpayserver.org";
                Btcpay.BTCPAY_API_KEY := None;
                Btcpay.BTCPAY_STORE_ID := None |} in
  let error := RuntimeError
    "Missing env var(s): BTCPAY_API_KEY, BTCPAY_STORE_ID. Add them to your .env file." in
  Btcpay.import_module ∅ = Ok cfg /\
  Btcpay.get_invoice W "inv_1" (cfg, []) = (Raise error, (cfg, [])) /\
  Btcpay.get_invoice W "inv_1" (snd (Btcpay.get_invoice W "inv_1" (cfg, [])))
    = (Raise error, (cfg, [])) /\
  Btcpay.is_invoice_paid W "inv_1" (cfg, []) = (Raise error, (cfg, [])) /\
  Btcpay.create_invoice W "escrow_1" "25.0" "USD" None (cfg, [])
    = (Raise error, (cfg, [])).
Proof. repeat split. Qed.

Lemma missing_credentials_raise_on_every_call_witness :
  Btcpay.not_str ((∅ : gmap string string) !! "BTCPAY_API_KEY")
    || Btcpay.not_str ((∅ : gmap string string) !! "BTCPAY_STORE_ID") = true /\
  exists cfg msg,
    Btcpay.import_module ∅ = Ok cfg /\
    Btcpay.get_invoice (btcpay_world (invoice_of [btc])) "inv_1" (cfg, [])
      = (Raise (RuntimeError msg), (cfg, [])).
Proof.
  split; [reflexivity|].
  destruct (missing_credentials_raise_on_every_call ∅)
    as (cfg & msg & Himport & Hget & _); [reflexivity|].
  exists cfg, msg. split; [exact Himport | apply Hget].
Defined.

Lemma reregistration_last_write_wins_witness :
  let W := bot_world (invoice_of []) in
  let m1 := message "/seller addrA" in
  let m2 := message "/buyer addrB" in
  let s12 := snd (register W Buyer m2 (snd (register W Seller m1 (bot_state, [])))) in
  (2 <= length (str_split (Bot.text m1)))%nat /\
  (2 <= length (str_split (Bot.text m2)))%nat /\
  Bot.user_roles (fst s12)
    = Bot.user_roles (fst (snd (register W Buyer m2 (bot_state, [])))) /\
  Bot.user_roles (fst s12) !! 42 = Some {| Bot.role := "buyer"; Bot.address := "addrB" |}.
Proof.
  intros W m1 m2 s12.
  assert (2 <= length (str_split (Bot.text m1)))%nat as H1 by (simpl; lia).
  assert (2 <= length (str_split (Bot.text m2)))%nat as H2 by (simpl; lia).
  split; [exact H1|]. split; [exact H2|].
  pose proof (reregistration_last_write_wins W Seller Buyer m1 m2 (bot_state, [])
                eq_refl H1 H2) as (A & _ & C).
  split; [exact A | exact C].
Defined.

Lemma missing_argument_changes_nothing_witness :
  let W := bot_world (invoice_of []) in
  (length (str_split (Bot.text (message "/seller"))) < 2)%nat /\
  Bot.cmd_seller W (message "/seller") (bot_state, [])
    = (Ok tt, (bot_state, [Bot.Reply 7 "⚠️ Usage: /seller <WALLET_ADDRESS>"])) /\
  Bot.cmd_buyer W (message "/seller") (bot_state, [])
    = (Ok tt, (bot_state, [Bot.Reply 7 "⚠️ Usage: /buyer <WALLET_ADDRESS>"])) /\
  Bot.cmd_pay W (message "/seller") (bot_state, [])
    = (Ok tt, (bot_state, [Bot.Reply 7 "⚠️ Usage: /pay <invoice_id>"])).
Proof.
  intros W.
  assert (length (str_split (Bot.text (message "/seller"))) < 2)%nat as Hlen
    by (simpl; lia).
  split; [exact Hlen|].
  exact (missing_argument_changes_nothing W (message "/seller") (bot_state, []) Hlen).
Defined.

Lemma create_new_group_outcome_witness :
  let r := fst (AppTdlib.create_new_group (AppTdlib.scripted only_fallback_link)
                  (tdlib_state (Some "WealthEscrowBot"), [])) in
  r = Ok ("https://t.me/+fallback", "Escrow #abcde", -1001234) /\
  is_ok r = true /\
  AppTdlib.of_create_supergroup only_fallback_link = Ok (-1001234) /\
  AppTdlib.of_create_chat_invite_link only_fallback_link = Ok "https://t.me/+fallback".
Proof.
  intros r.
  pose proof (create_new_group_outcome only_fallback_link
                (tdlib_state (Some "WealthEscrowBot")) []) as (Hok & _ & Hhandle).
  assert (r = Ok ("https://t.me/+fallback", "Escrow #abcde", -1001234)) as Hr
    by reflexivity.
  destruct (Hhandle _ _ _ Hr) as [Hchat [Hlink | [_ Hlink]]];
    [discriminate Hlink|].
  split; [exact Hr|]. split; [exact (eq_trans Hok eq_refl)|].
  split; [exact Hchat | exact Hlink].
Defined.

(** The bot's name is not cached and its lookup fails: provisioning fails
    before the channel is asked for, although creating the channel and
    exporting the link would both succeed. *)
Lemma create_new_group_fails_on_get_me :
  AppTdlib.create_new_group (AppTdlib.scripted get_me_fails) (tdlib_state None, [])
    = (Raise flood, (tdlib_state None, [AppTdlib.GetMe])) /\
  is_ok (AppTdlib.of_create_supergroup get_me_fails)
    && (is_ok (AppTdlib.of_export_chat_invite_link get_me_fails)
        || is_ok (AppTdlib.of_create_chat_invite_link get_me_fails)) = true.
Proof. split; reflexivity. Qed.

(** Two successful payment displays after which a message stays: the [/pay]
    of [bot_groups.py] deletes nothing, and the one of [bot.py] leaves the
    command message when the photo cannot be deleted. *)
Lemma pay_messages_left_undeleted :
  BotGroups.cmd_pay (groups_world (invoice_of [btc])) (groups_message "/pay inv_1")
      (groups_config, [])
    = (Ok tt,
       (groups_config,
        [BotGroups.HttpGet "https://btcpay.example/api/v1/stores/store/invoices/inv_1"
           [("Authorization", "token key"); ("Content-Type", "application/json")];
         BotGroups.WriteFile "/tmp/inv_1.png" "PNG:bitcoin:bc1qexample?amount=0.01";
         BotGroups.ReplyPhoto 7 "/tmp/inv_1.png"
           ("💳 Payment QR for invoice `inv_1`" +:+ nl +:+ nl +:+
            "👉 URI: `bitcoin:bc1qexample?amount=0.01`")])) /\
  snd (snd (Bot.cmd_pay (bot_world_photo_gone (invoice_of [btc])) (message "/pay inv_1")
              (bot_state, [])))
    = [Bot.HttpGet "https://btcpay.example/api/v1/stores/store/invoices/inv_1"
         [("Authorization", "token key"); ("Content-Type", "application/json")];
       Bot.HttpGet "https://btcpay.example/api/v1/stores/store/invoices/inv_1"
         [("Authorization", "token key"); ("Content-Type", "application/json")];
       Bot.AnswerPhoto (-100) "PNG:bitcoin:bc1qexample?amount=0.01"
         (Bot.pay_caption "inv_1" (PStr "https://pay.example/i/inv_1"));
       Bot.Sleep 60;
       Bot.Delete 1001;
       Bot.Reply 7 "❌ Error: Message to delete not found"].
Proof. split; reflexivity. Qed.

Lemma cmd_pay_deletes_after_sleep_witness :
  let W := bot_world (invoice_of [btc]) in
  let m := message "/pay inv_1" in
  let get := Bot.HttpGet "https://btcpay.example/api/v1/stores/store/invoices/inv_1"
               [("Authorization", "token key"); ("Content-Type", "application/json")] in
  (2 <= length (str_split (Bot.text m)))%nat /\
  exists tail',
    snd (snd (Bot.cmd_pay W m (bot_state, []))) =
      ([get; get;
        Bot.AnswerPhoto (-100) "PNG:bitcoin:bc1qexample?amount=0.01"
          (Bot.pay_caption "inv_1" (PStr "https://pay.example/i/inv_1"));
        Bot.Sleep 60; Bot.Delete 1001; Bot.Delete 7] ++ tail')%list.
Proof.
  intros W m get.
  assert (2 <= length (str_split (Bot.text m)))%nat as Hlen by (simpl; lia).
  split; [exact Hlen|].
  destruct (cmd_pay_deletes_after_sleep W m bot_state [] (invoice_of [btc])
              "PNG:bitcoin:bc1qexample?amount=0.01" 1001
              (bot_state, [get]) (bot_state, [get; get])
              Hlen eq_refl eq_refl eq_refl)
    as (_ & tail & Htrace & Hdeleted & _).
  destruct (Hdeleted eq_refl) as [tail' ->].
  exists tail'. exact Htrace.
Defined.

End Instances.

(** * The further properties at work *)

Section MoreInstances.
Import Sample.
Existing Instance builtins.

Lemma create_new_group_title_witness :
  let run := AppTdlib.create_new_group (AppTdlib.scripted all_fine)
               (tdlib_state (Some "WealthEscrowBot"), []) in
  fst run = Ok ("https://t.me/+primary", "Escrow #abcde", -1001234) /\
  exists code, "Escrow #abcde" = "Escrow" +:+ " #" +:+ code /\ String.length code = 5%nat.
Proof.
  intros run.
  assert (run = (Ok ("https://t.me/+primary", "Escrow #abcde", -1001234), snd run))
    as Hrun by reflexivity.
  split; [reflexivity|].
  destruct (create_new_group_title (AppTdlib.scripted all_fine)
              (tdlib_state (Some "WealthEscrowBot")) []
              "https://t.me/+primary" "Escrow #abcde" (-1001234) (snd run) Hrun)
    as ((code & Ht & Hl & _) & _).
  exists code. split; [exact Ht | exact Hl].
Defined.

Lemma create_new_group_caches_name_witness :
  AppTdlib.not_str None = true /\
  AppTdlib.bot_get_me (AppTdlib.scripted no_channel) [] = Ok (Some "WealthEscrowBot") /\
  fst (AppTdlib.create_new_group (AppTdlib.scripted no_channel) (tdlib_state None, []))
    = Raise flood /\
  fst (snd (AppTdlib.create_new_group (AppTdlib.scripted no_channel)
              (tdlib_state None, [])))
    = tdlib_state (Some "WealthEscrowBot").
Proof.
  split; [reflexivity|]. split; [reflexivity|]. split; [reflexivity|].
  apply (proj1 (proj2 (create_new_group_caches_name
                         (AppTdlib.scripted no_channel) (tdlib_state None) []))
               eq_refl (Some "WealthEscrowBot") eq_refl).
Defined.

Lemma create_new_group_calls_witness :
  AppTdlib.not_str (Some "WealthEscrowBot") = false /\
  exists code,
    snd (snd (AppTdlib.create_new_group (AppTdlib.scripted only_fallback_link)
                (tdlib_state (Some "WealthEscrowBot"), []))) =
    (repeat (AppTdlib.RandomChoice AppTdlib.ascii_lowercase) 5
     ++ [AppTdlib.CreateSupergroup ("Escrow" +:+ " #" +:+ code)
           "Escrow room created by WealthEscrowBot";
         AppTdlib.AddChatMembers (-1001234) ["@WealthEscrowBot"];
         AppTdlib.PromoteChatMember (-1001234) "@WealthEscrowBot"
           {| AppTdlib.can_manage_chat := true; AppTdlib.can_delete_messages := true;
              AppTdlib.can_manage_video_chats := true; AppTdlib.can_invite_users := true;
              AppTdlib.can_pin_messages := true; AppTdlib.can_restrict_members := true;
              AppTdlib.can_change_info := true; AppTdlib.can_promote_members := false |};
         AppTdlib.ExportChatInviteLink (-1001234);
         AppTdlib.CreateChatInviteLink (-1001234)])%list.
Proof.
  split; [reflexivity|].
  destruct (create_new_group_calls only_fallback_link
              (tdlib_state (Some "WealthEscrowBot")) [] (or_introl eq_refl))
    as [code Hcalls].
  exists code. exact Hcalls.
Defined.

Lemma import_strips_trailing_slashes_witness :
  exists cfg,
    Btcpay.import_module btcpay_environ = Ok cfg /\
    Btcpay.BTCPAY_URL cfg = "https://btcpay.example" /\
    (forall t, Btcpay.BTCPAY_URL cfg <> t +:+ "/").
Proof.
  destruct (Btcpay.import_module btcpay_environ) as [cfg|e] eqn:E;
    [|discriminate E].
  exists cfg. split; [reflexivity|].
  split; [injection E as <-; reflexivity|].
  exact (proj1 (import_strips_trailing_slashes btcpay_environ cfg E)).
Defined.

Lemma btcpay_get_is_one_authorized_request_witness :
  Btcpay.BTCPAY_API_KEY btcpay_config = Some "key" /\ "key" <> "" /\
  Btcpay.BTCPAY_STORE_ID btcpay_config = Some "store" /\ "store" <> "" /\
  snd (Btcpay.is_invoice_paid (btcpay_world (invoice_of [btc])) "inv_1" (btcpay_config, []))
    = (btcpay_config,
       [Btcpay.HttpGet "https://btcpay.example/api/v1/stores/store/invoices/inv_1"
          [("Authorization", "token key"); ("Content-Type", "application/json")]]).
Proof.
  assert ("key" <> "") as Hk by discriminate.
  assert ("store" <> "") as Hs by discriminate.
  split; [reflexivity|]. split; [exact Hk|]. split; [reflexivity|]. split; [exact Hs|].
  exact (proj1 (proj2 (btcpay_get_is_one_authorized_request
                         (btcpay_world (invoice_of [btc])) btcpay_config []
                         "key" "store" "inv_1" eq_refl Hk eq_refl Hs))).
Defined.

Lemma btcpay_create_invoice_is_one_post_witness :
  "key" <> "" /\ "store" <> "" /\
  snd (snd (Btcpay.create_invoice (btcpay_world (invoice_of [btc]))
              "escrow_1" "25.0" "USD" (Some "") (btcpay_config, [])))
    = [Btcpay.HttpPost "https://btcpay.example/api/v1/stores/store/invoices"
         (PDict [("amount", PStr "25.0"); ("currency", PStr "USD");
                 ("metadata", PDict [("escrow_id", PStr "escrow_1")])])
         [("Authorization", "token key"); ("Content-Type", "application/json")]].
Proof.
  assert ("key" <> "") as Hk by discriminate.
  assert ("store" <> "") as Hs by discriminate.
  split; [exact Hk|]. split; [exact Hs|].
  rewrite (proj1 (btcpay_create_invoice_is_one_post
                    (btcpay_world (invoice_of [btc])) btcpay_config []
                    "key" "store" "escrow_1" "25.0" "USD" (Some "")
                    eq_refl Hk eq_refl Hs)).
  reflexivity.
Defined.

Lemma is_invoice_paid_iff_settled_witness :
  let W := btcpay_world (invoice_of [btc]) in
  let s := (btcpay_config, []) in
  status (invoice_of [btc]) <> PStr "Settled" /\
  Btcpay.is_invoice_paid W "inv_1" s
    = (Ok false, snd (Btcpay.get_invoice W "inv_1" s)).
Proof.
  intros W s.
  assert (status (invoice_of [btc]) <> PStr "Settled") as Hne by discriminate.
  split; [exact Hne|].
  exact (proj2 (is_invoice_paid_iff_settled W "inv_1" s _) (invoice_of [btc])
               eq_refl Hne).
Defined.

Lemma registrations_commute_witness :
  let W := bot_world (invoice_of []) in
  let m1 := message "/seller addrA" in
  let m2 := other_message "/buyer addrB" in
  Bot.from_user_id m1 <> Bot.from_user_id m2 /\
  Bot.user_roles (fst (snd (register W Buyer m2 (snd (register W Seller m1 (bot_state, []))))))
  = Bot.user_roles (fst (snd (register W Seller m1 (snd (register W Buyer m2 (bot_state, [])))))).
Proof.
  intros W m1 m2.
  assert (Bot.from_user_id m1 <> Bot.from_user_id m2) as Hne by discriminate.
  assert (2 <= length (str_split (Bot.text m1)))%nat as H1 by (simpl; lia).
  assert (2 <= length (str_split (Bot.text m2)))%nat as H2 by (simpl; lia).
  split; [exact Hne|].
  exact (registrations_commute W Seller Buyer m1 m2 (bot_state, []) Hne H1 H2).
Defined.

Lemma register_keeps_the_rest_witness :
  let W := bot_world (invoice_of []) in
  let s1 := snd (register W Seller (message "/seller addrA") (bot_state, [])) in
  42 <> Bot.from_user_id (other_message "/buyer addrB") /\
  Bot.user_roles (fst (snd (register W Buyer (other_message "/buyer addrB") s1))) !! 42
    = Bot.user_roles (fst s1) !! 42.
Proof.
  intros W s1.
  assert (42 <> Bot.from_user_id (other_message "/buyer addrB")) as Hne by discriminate.
  split; [exact Hne|].
  exact (proj1 (proj2 (register_keeps_the_rest W Buyer (other_message "/buyer addrB") s1))
               42 Hne).
Defined.

Lemma bot_get_invoice_unguarded_witness :
  Bot.BTCPAY_API_KEY bot_state_unset = None /\
  Bot.BTCPAY_STORE_ID bot_state_unset = None /\
  snd (snd (Bot.get_invoice (bot_world (invoice_of [btc])) "inv_1" (bot_state_unset, [])))
    = [Bot.HttpGet "https://btcpay.example/api/v1/stores/None/invoices/inv_1"
         [("Authorization", "token None"); ("Content-Type", "application/json")]].
Proof.
  split; [reflexivity|]. split; [reflexivity|].
  rewrite (bot_get_invoice_unguarded (bot_world (invoice_of [btc])) bot_state_unset []
             "inv_1" eq_refl eq_refl).
  reflexivity.
Defined.

Lemma cmd_pay_reports_the_error_witness :
  (2 <= length (str_split (Bot.text (message "/pay inv_1"))))%nat /\
  Bot.cmd_pay bot_world_down (message "/pay inv_1") (bot_state, [])
    = (Ok tt,
       (bot_state,
        [Bot.HttpGet "https://btcpay.example/api/v1/stores/store/invoices/inv_1"
           [("Authorization", "token key"); ("Content-Type", "application/json")];
         Bot.Reply 7 "❌ Error: Connection refused"])).
Proof.
  assert (2 <= length (str_split (Bot.text (message "/pay inv_1"))))%nat as Hlen
    by (simpl; lia).
  split; [exact Hlen|].
  rewrite (proj1 (cmd_pay_reports_the_error bot_world_down (message "/pay inv_1")
                    bot_state [] Hlen)
             (OtherError "ConnectionError" "Connection refused") eq_refl).
  reflexivity.
Defined.

Lemma groups_cmd_pay_uses_first_method_witness :
  let W := groups_world (invoice_of [btc; ln]) in
  (2 <= length (str_split (str_strip (BotGroups.text (groups_message "/pay inv_1")))))%nat /\
  BotGroups.payment_uri btc = Ok "bitcoin:bc1qexample?amount=0.01" /\
  exists tr,
    BotGroups.cmd_pay W (groups_message "/pay inv_1") (groups_config, [])
      = (Ok tt,
         (groups_config,
          (tr ++ [BotGroups.WriteFile "/tmp/inv_1.png" "PNG:bitcoin:bc1qexample?amount=0.01";
                  BotGroups.ReplyPhoto 7 "/tmp/inv_1.png"
                    ("💳 Payment QR for invoice `inv_1`" +:+ nl +:+ nl +:+
                     "👉 URI: `bitcoin:bc1qexample?amount=0.01`")])%list)).
Proof.
  intros W.
  assert (2 <= length (str_split (str_strip
            (BotGroups.text (groups_message "/pay inv_1")))))%nat as Hlen
    by (simpl; lia).
  split; [exact Hlen|]. split; [reflexivity|].
  eexists.
  rewrite (groups_cmd_pay_uses_first_method W (groups_message "/pay inv_1")
             groups_config [] (invoice_of [btc; ln]) btc [ln]
             "bitcoin:bc1qexample?amount=0.01" "PNG:bitcoin:bc1qexample?amount=0.01"
             (snd (BotGroups.get_invoice W "inv_1" (groups_config, [])))
             Hlen eq_refl eq_refl eq_refl eq_refl eq_refl eq_refl).
  cbn [fst snd]. rewrite <- app_assoc. reflexivity.
Defined.


Lemma is_lightning_iff_marker_witness :
  dict_lookup ln "paymentMethod" = Some (PStr "BTC-LightningNetwork") /\
  BotGroups.is_lightning ln = Ok true /\
  (exists pre post, "BTC-LightningNetwork" = pre +:+ "Lightning" +:+ post) /\
  BotGroups.is_lightning [("paymentMethod", PList [PStr "BTC"; PStr "Lightning"])]
    = Ok true /\
  In (PStr "Lightning") [PStr "BTC"; PStr "Lightning"].
Proof.
  split; [reflexivity|]. split; [reflexivity|]. split.
  - destruct (proj1 (is_lightning_iff_marker ln) "BTC-LightningNetwork" eq_refl)
      as (b & Hb & Hiff).
    apply Hiff. now injection Hb as <-.
  - split; [reflexivity|].
    destruct (proj1 (proj2 (is_lightning_iff_marker
                              [("paymentMethod", PList [PStr "BTC"; PStr "Lightning"])]))
                [PStr "BTC"; PStr "Lightning"] eq_refl) as (b & Hb & Hiff).
    apply Hiff. now injection Hb as <-.
Defined.

Lemma tdlib_import_needs_every_setting_witness :
  exists st,
    AppTdlibMain.import_module int_of_text tdlib_environ = Ok st /\
    AppTdlibMain.initial_state st = tdlib_state None.
Proof.
  destruct (AppTdlibMain.import_module int_of_text tdlib_environ) as [st|e] eqn:E;
    [|discriminate E].
  exists st. split; [reflexivity|].
  rewrite (proj1 (proj2 (tdlib_import_needs_every_setting int_of_text tdlib_environ))
             st E).
  reflexivity.
Defined.

Lemma handle_create_failure_witness :
  AppTdlibMain.handle_create (tdlib_world no_channel) tdlib_message
      (tdlib_state (Some "WealthEscrowBot"), [])
    = (Ok tt,
       (tdlib_state (Some "WealthEscrowBot"),
        ([AppTdlibMain.Reply 7 "Creating Escrow Group. Please Wait..." false]
         ++ map AppTdlibMain.Provision
              (repeat (AppTdlib.RandomChoice AppTdlib.ascii_lowercase) 5
               ++ [AppTdlib.CreateSupergroup "Escrow #abcde"
                     "Escrow room created by WealthEscrowBot"])
         ++ [AppTdlibMain.Reply 7
               "❌ Error creating group: A wait of 30 seconds is required" false])%list)).
Proof.
  rewrite (proj2 (handle_create_failure (tdlib_world no_channel) tdlib_message
                    (tdlib_state (Some "WealthEscrowBot")) [])
             flood (tdlib_state (Some "WealthEscrowBot"))
             (repeat (AppTdlib.RandomChoice AppTdlib.ascii_lowercase) 5
              ++ [AppTdlib.CreateSupergroup "Escrow #abcde"
                    "Escrow room created by WealthEscrowBot"])%list
             eq_refl eq_refl).
  reflexivity.
Defined.

Lemma handle_create_success_witness :
  let W := tdlib_world_bot_outside all_fine in
  let provisioned :=
    (repeat (AppTdlib.RandomChoice AppTdlib.ascii_lowercase) 5
     ++ [AppTdlib.CreateSupergroup "Escrow #abcde" "Escrow room created by WealthEscrowBot";
         AppTdlib.AddChatMembers (-1001234) ["@WealthEscrowBot"];
         AppTdlib.PromoteChatMember (-1001234) "@WealthEscrowBot"
           {| AppTdlib.can_manage_chat := true; AppTdlib.can_delete_messages := true;
              AppTdlib.can_manage_video_chats := true; AppTdlib.can_invite_users := true;
              AppTdlib.can_pin_messages := true; AppTdlib.can_restrict_members := true;
              AppTdlib.can_change_info := true; AppTdlib.can_promote_members := false |};
         AppTdlib.ExportChatInviteLink (-1001234)])%list in
  snd (snd (AppTdlibMain.handle_create W tdlib_message
              (tdlib_state (Some "WealthEscrowBot"), [])))
    = ([AppTdlibMain.Reply 7 "Creating Escrow Group. Please Wait..." false]
       ++ map AppTdlibMain.Provision provisioned
       ++ [AppTdlibMain.Reply 7
             (AppTdlibMain.created_text "Escrow #abcde" "https://t.me/+primary") true;
           AppTdlibMain.SendMessage (-1001234) (AppTdlibMain.welcome_text "Escrow #abcde");
           AppTdlibMain.Reply 7
             "❌ Error creating group: The channel is not accessible" false])%list.
Proof.
  intros W provisioned.
  rewrite (proj2 (handle_create_success W tdlib_message
                    (tdlib_state (Some "WealthEscrowBot"))
                    (tdlib_state (Some "WealthEscrowBot")) [] provisioned
                    "https://t.me/+primary" "Escrow #abcde" (-1001234)
                    eq_refl eq_refl eq_refl)
             (OtherError "ChannelPrivate" "The channel is not accessible") eq_refl).
  reflexivity.
Defined.

Lemma main_caches_the_name_before_idling_witness :
  let W := tdlib_world all_fine in
  let g1 := tdlib_state (Some "WealthEscrowBot") in
  AppTdlibMain.main W (tdlib_state None, [])
    = (Ok tt,
       (g1, [AppTdlibMain.UserStart; AppTdlibMain.BotStart;
             AppTdlibMain.Provision AppTdlib.GetMe;
             AppTdlibMain.Print "Bot is running...";
             AppTdlibMain.Idle; AppTdlibMain.BotStop; AppTdlibMain.UserStop])) /\
  AppTdlib.not_str (Some "WealthEscrowBot") = false /\
  fst (snd (AppTdlibMain.handle_create W tdlib_message (g1, []))) = g1.
Proof.
  intros W g1.
  destruct (proj1 (main_caches_the_name_before_idling W (tdlib_state None) []
                     eq_refl eq_refl)
              (Some "WealthEscrowBot") eq_refl) as (_ & _ & Hmain & Hlater).
  split; [exact (Hmain eq_refl eq_refl)|]. split; [reflexivity|].
  exact (proj1 (Hlater eq_refl tdlib_message [])).
Defined.

Lemma bot_cmd_create_outcomes_witness :
  BotCreate.TOPIC_IDS (invite_state []) = [] /\
  BotCreate.cmd_create invite_world invite_message (invite_state [], [])
    = (Raise (ValueError "No topic IDs in .env"), (invite_state [], [])) /\
  BotCreate.TOPIC_IDS (invite_state [11; 12; 13]) <> [] /\
  exists topic_id,
    In topic_id [11; 12; 13] /\
    snd (snd (BotCreate.generate_group_invite invite_world (invite_state [11; 12; 13], [])))
      = [BotCreate.RandomChoice [11; 12; 13];
         BotCreate.CreateChatInviteLink (-1009) ("Escrow Topic " +:+ pretty topic_id) false].
Proof.
  pose proof (bot_cmd_create_outcomes invite_world invite_message (invite_state []) [])
    as [Hempty _].
  pose proof (bot_cmd_create_outcomes invite_world invite_message
                (invite_state [11; 12; 13]) []) as [_ Hsome].
  assert (BotCreate.TOPIC_IDS (invite_state [11; 12; 13]) <> []) as Hne by discriminate.
  split; [reflexivity|]. split; [exact (proj2 (Hempty eq_refl))|]. split; [exact Hne|].
  destruct (Hsome Hne) as (topic_id & Hin & Hrun & _).
  exists topic_id. split; [exact Hin|]. now rewrite Hrun.
Defined.

Lemma groups_cmd_create_outcomes_witness :
  BotGroupsCreate.TOPIC_IDS (groups_invite_state []) = [] /\
  BotGroupsCreate.cmd_create groups_invite_world groups_invite_message
      (groups_invite_state [], [])
    = (Ok tt,
       (groups_invite_state [],
        [BotGroupsCreate.Reply 7 "❌ No topic IDs configured in .env"])).
Proof.
  split; [reflexivity|].
  rewrite (proj1 (groups_cmd_create_outcomes groups_invite_world groups_invite_message
                    (groups_invite_state []) []) eq_refl).
  reflexivity.
Defined.

Lemma select_method_picks_an_offered_method_witness :
  BotGroups.select_method true [btc; ln] = Ok ln /\ In ln [btc; ln].
Proof.
  split; [reflexivity|].
  exact (proj1 (select_method_picks_an_offered_method true [btc; ln]) ln eq_refl).
Defined.

Lemma generate_payment_qr_returns_a_matching_pair_witness :
  let W := groups_world (invoice_of [btc; ln]) in
  fst (BotGroups.generate_payment_qr W "inv_1" true (groups_config, []))
    = Ok ("PNG:lightning:lnbc1example", "lightning:lnbc1example") /\
  exists chosen,
    In chosen [btc; ln] /\
    BotGroups.payment_uri chosen = Ok "lightning:lnbc1example" /\
    qrcode_png "lightning:lnbc1example" = Ok "PNG:lightning:lnbc1example".
Proof.
  intros W. split; [reflexivity|].
  assert (BotGroups.generate_payment_qr W "inv_1" true (groups_config, [])
          = (Ok ("PNG:lightning:lnbc1example", "lightning:lnbc1example"),
             snd (BotGroups.generate_payment_qr W "inv_1" true (groups_config, []))))
    as Hrun by reflexivity.
  destruct (generate_payment_qr_returns_a_matching_pair W "inv_1" true
              "PNG:lightning:lnbc1example" "lightning:lnbc1example"
              (groups_config, []) _ Hrun)
    as (inv & chosen & Hget & Hin & _ & Huri & Hqr).
  assert (inv = invoice_of [btc; ln]) as ->.
  { assert (BotGroups.get_invoice W "inv_1" (groups_config, [])
            = (Ok (invoice_of [btc; ln]),
               snd (BotGroups.get_invoice W "inv_1" (groups_config, []))))
      as Hget' by reflexivity.
    rewrite Hget' in Hget. now injection Hget as <-. }
  exists chosen. split; [exact Hin|]. split; [exact Huri | exact Hqr].
Defined.

End MoreInstances.

